(** * Immutable, inheritable class constants: [class_constant] and [MyMeta]

    Shallow embedding of the constant-declaration core of econolab
    (notebook captured in docs/source/references/api/currency.rst):
    the descriptor [class_constant], the metaclass [MyMeta] with its
    [__new__], [__setattr__], [__delattr__], [_make_class_constant] and
    [_is_class_constant], together with the parts of the Python object
    model they rely on (attribute lookup along the MRO, data-descriptor
    precedence, the C3 linearisation computed by [type.__new__],
    [__set_name__]).

    Objects are referred to by identity: classes by their index in the
    world's class table, instances by their index in the instance table.
    A class [__dict__] and an instance [__dict__] are insertion-ordered
    association lists keyed by attribute name.  Of the metatype's own
    attributes, [__name__] (read, rename, delete) is modelled; the other
    special names ([__dict__], [__mro__], [__bases__], [__module__], ...)
    and class bodies that bind a user-written [class_constant] object
    (whose [__set_name__] acts on one shared object) are outside the
    embedding: the operations touching them raise [Unmodelled]. *)

From Stdlib Require Import String Ascii List ZArith Bool Arith Lia.
Import ListNotations.
Open Scope list_scope.

(** ** Python values *)

(** The values this core stores in namespaces: [None], integers, strings
    and sets of strings (a Python set of names, kept as a list). *)
Inductive pyval : Type :=
| VNone
| VInt (z : Z)
| VStr (s : string)
| VSet (names : list string).

(** The context handed to a getter: an instance, or the owner class when
    the read goes through the class ([instance = owner] in [__get__]). *)
Inductive ctx : Type :=
| CtxObj (i : nat)
| CtxType (c : nat).

(** A [class_constant] object: its [name] slot ([None] until
    [__set_name__] runs) and its [fget]. *)
Record class_constant : Type := mk_class_constant {
  cc_name : option string;
  cc_fget : ctx -> pyval
}.

(** What a class namespace holds under a name: a [class_constant]
    (a data descriptor) or an ordinary value. *)
Inductive attr : Type :=
| ASlot (s : class_constant)
| APlain (v : pyval).

(** Exceptions.  [NoClassAttribute c n] and [NoInstanceAttribute c n] are
    the [AttributeError]s the interpreter raises for a missing attribute
    [n] of the class named [c] or of one of its instances (also for an
    instance without a [__dict__]); their wording differs between Python
    versions and is not modelled.  [MroConflict] is the [TypeError]
    "Cannot create a consistent method resolution order (MRO) ...".
    [Unmodelled what] marks behaviour outside this embedding: special
    (dunder) attributes other than [__name__], [class_constant] objects
    written in a class body, identities that name no object. *)
Inductive pyerr : Type :=
| AttributeError (msg : string)
| TypeError (msg : string)
| ValueError (msg : string)
| NoClassAttribute (cls name : string)
| NoInstanceAttribute (cls name : string)
| MroConflict
| Unmodelled (what : string).

(** A computation that may raise. *)
Inductive res (A : Type) : Type :=
| Ok (a : A)
| Raise (e : pyerr).
Arguments Ok {A} a.
Arguments Raise {A} e.

(** ** Dictionaries (insertion-ordered, keys unique) *)

Section Dict.
Context {V : Type}.

Fixpoint dget (k : string) (d : list (string * V)) : option V :=
  match d with
  | [] => None
  | (k', v) :: t => if String.eqb k k' then Some v else dget k t
  end.

(** [d[k] = v]: an existing key keeps its position, a new key goes last. *)
Fixpoint dset (k : string) (v : V) (d : list (string * V)) : list (string * V) :=
  match d with
  | [] => [(k, v)]
  | (k', v') :: t => if String.eqb k k' then (k, v) :: t else (k', v') :: dset k v t
  end.

(** [del d[k]] / [d.pop(k)]: removes the entry, if any (every entry under
    [k]; a dictionary has at most one). *)
Fixpoint ddel (k : string) (d : list (string * V)) : list (string * V) :=
  match d with
  | [] => []
  | (k', v') :: t => if String.eqb k k' then ddel k t else (k', v') :: ddel k t
  end.

End Dict.

(** ** Sets of names *)

Definition sadd (x : string) (s : list string) : list string :=
  if existsb (String.eqb x) s then s else s ++ [x].

(** [s.update(l)] *)
Definition supdate (s l : list string) : list string := fold_left (fun acc x => sadd x acc) l s.

(** [set(l)] *)
Definition to_set (l : list string) : list string := supdate [] l.

(** Iterating a value as [set(v)] / [s.update(v)] does: a set yields its
    elements, a string its characters; anything else is not iterable. *)
Fixpoint str_chars (s : string) : list string :=
  match s with
  | EmptyString => []
  | String c r => String c EmptyString :: str_chars r
  end.

Definition py_iter (v : pyval) : option (list string) :=
  match v with
  | VSet l => Some l
  | VStr s => Some (str_chars s)
  | VNone | VInt _ => None
  end.

(** ** Classes, instances, world *)

(** [Builtin] is [object]; [Plain] classes have metaclass [type];
    [Meta] classes were built by [MyMeta]. *)
Inductive kind : Type := Builtin | Plain | Meta.

Record pyclass : Type := mk_class {
  cname : string;
  ckind : kind;
  cmro : list nat;                      (* [cls.__mro__], starts with the class *)
  cdict : list (string * attr)          (* [cls.__dict__] *)
}.

Record instance : Type := mk_instance {
  icls : nat;                           (* [type(i)] *)
  idict : list (string * pyval)         (* [i.__dict__] *)
}.

Record world : Type := mk_world {
  wcls : list pyclass;
  winst : list instance
}.

Definition class_of (w : world) (c : nat) : option pyclass := nth_error (wcls w) c.
Definition inst_of (w : world) (i : nat) : option instance := nth_error (winst w) i.

Fixpoint replace_nth {A} (n : nat) (x : A) (l : list A) : list A :=
  match l, n with
  | [], _ => []
  | _ :: t, 0 => x :: t
  | y :: t, S n' => y :: replace_nth n' x t
  end.

Definition update_class (w : world) (c : nat) (f : pyclass -> pyclass) : world :=
  match class_of w c with
  | Some cls => mk_world (replace_nth c (f cls) (wcls w)) (winst w)
  | None => w
  end.

Definition update_inst (w : world) (i : nat) (f : instance -> instance) : world :=
  match inst_of w i with
  | Some o => mk_world (wcls w) (replace_nth i (f o) (winst w))
  | None => w
  end.

Definition with_cdict (d : list (string * attr)) (cls : pyclass) : pyclass :=
  mk_class (cname cls) (ckind cls) (cmro cls) d.

Definition with_idict (d : list (string * pyval)) (o : instance) : instance :=
  mk_instance (icls o) d.

(** [object] *)
Definition object_class : pyclass := mk_class "object" Builtin [0] [].
Definition w_init : world := mk_world [object_class] [].

(** ** Names and messages *)

Local Open Scope string_scope.

(** A special name [__x__]: besides [__name__], the interpreter and the
    metatype [type] give such names their own meaning ([__dict__],
    [__class__], [__bases__], [__mro__], [__getattribute__], [__slots__],
    [__set_name__], ...).  [__constants__] and [__constant_attrs__] are
    this module's own and are modelled; the others, except [__name__],
    are outside the embedding. *)
Definition is_dunder (n : string) : bool :=
  Nat.leb 4 (String.length n) && String.prefix "__" n &&
  String.prefix "__" (substring (String.length n - 2) 2 n).

Definition special_name (n : string) : bool :=
  is_dunder n && negb (String.eqb n "__constants__") && negb (String.eqb n "__constant_attrs__").

(** The non-special attributes a class finds on its metaclass: [mro] on
    [type], and the two static methods of [MyMeta]. *)
Definition meta_provides (k : kind) (n : string) : bool :=
  String.eqb n "mro" ||
  match k with
  | Meta => String.eqb n "_make_class_constant" || String.eqb n "_is_class_constant"
  | _ => false
  end.

(** [type(v).__name__] *)
Definition py_type_name (v : pyval) : string :=
  match v with
  | VNone => "NoneType"
  | VInt _ => "int"
  | VStr _ => "str"
  | VSet _ => "set"
  end.

Definition attr_type_name (a : attr) : string :=
  match a with
  | ASlot _ => "class_constant"
  | APlain v => py_type_name v
  end.

(** [v(...)] for a value that is not a function. *)
Definition not_callable (v : pyval) : pyerr :=
  TypeError ("'" ++ py_type_name v ++ "' object is not callable").

Definition not_iterable (tn : string) : pyerr :=
  TypeError ("'" ++ tn ++ "' object is not iterable").

Fixpoint has_char (c : ascii) (s : string) : bool :=
  match s with
  | EmptyString => false
  | String c' r => Ascii.eqb c c' || has_char c r
  end.

Definition has_nul (s : string) : bool := has_char (ascii_of_nat 0) s.

(** [repr(s)] of a string (characters taken as code points 0-255): single
    quotes unless the string holds a single quote and no double quote;
    backslashes, the chosen quote, tab, newline and carriage return
    escaped; other control characters, 127-160 and 173 as [\xNN]. *)
Definition backslash : ascii := ascii_of_nat 92.
Definition squote : ascii := ascii_of_nat 39.
Definition dquote : ascii := ascii_of_nat 34.

Definition hex_digit (n : nat) : ascii :=
  ascii_of_nat (if Nat.ltb n 10 then 48 + n else 87 + n).

Definition repr_char (q c : ascii) : string :=
  let n := nat_of_ascii c in
  if Ascii.eqb c q || Nat.eqb n 92 then String backslash (String c EmptyString)
  else if Nat.eqb n 9 then String backslash "t"
  else if Nat.eqb n 10 then String backslash "n"
  else if Nat.eqb n 13 then String backslash "r"
  else if Nat.ltb n 32 || (Nat.leb 127 n && Nat.leb n 160) || Nat.eqb n 173 then
    String backslash (String "x" (String (hex_digit (n / 16)) (String (hex_digit (n mod 16)) EmptyString)))
  else String c EmptyString.

Fixpoint repr_chars (q : ascii) (s : string) : string :=
  match s with
  | EmptyString => EmptyString
  | String c r => repr_char q c ++ repr_chars q r
  end.

Definition py_repr (s : string) : string :=
  let q := if has_char squote s && negb (has_char dquote s) then dquote else squote in
  String q (repr_chars q s ++ String q EmptyString).

Local Close Scope string_scope.

(** ** Attribute lookup along the MRO ([_PyType_Lookup]) *)

Fixpoint lookup_mro (w : world) (mro : list nat) (name : string) : option (nat * attr) :=
  match mro with
  | [] => None
  | c :: rest =>
      match class_of w c with
      | Some cls =>
          match dget name (cdict cls) with
          | Some a => Some (c, a)
          | None => lookup_mro w rest name
          end
      | None => lookup_mro w rest name
      end
  end.

Definition is_slot (a : option attr) : bool :=
  match a with Some (ASlot _) => true | _ => false end.

(** [MyMeta._is_class_constant(name, classes)]: is there a [class_constant]
    under [name] in the own [__dict__] of any of [classes]? *)
Definition _is_class_constant (w : world) (name : string) (classes : list nat) : bool :=
  existsb (fun c => match class_of w c with
                    | Some cls => is_slot (dget name (cdict cls))
                    | None => false
                    end) classes.

(** [class_constant.__repr__] *)
Definition cc_repr (s : class_constant) : string :=
  ("class constant '" ++ match cc_name s with Some n => n | None => "None" end ++ "'")%string.

(** [MyMeta._make_class_constant(value)] = [class_constant(lambda _: value)] *)
Definition _make_class_constant (value : pyval) : class_constant :=
  mk_class_constant None (fun _ => value).

(** An identity that names no class or instance (not a Python situation). *)
Definition dangling : pyerr := Unmodelled "dangling identity".

(** ** Reading attributes *)

(** [getattr(T, name)] for a class [T] ([type.__getattribute__]):
    [__name__] is a data descriptor of the metatype and gives the class's
    name; otherwise a [class_constant] found along the MRO is called as
    [__get__(None, T)], which substitutes the owner, and an ordinary value
    is returned as it is; failing both, the metaclass's own attributes
    (functions, not modelled) and then [AttributeError]. *)
Definition type_getattr (w : world) (t : nat) (name : string) : res pyval :=
  match class_of w t with
  | None => Raise dangling
  | Some cls =>
      if String.eqb name "__name__" then Ok (VStr (cname cls))
      else if special_name name then Raise (Unmodelled name)
      else match lookup_mro w (cmro cls) name with
           | Some (_, ASlot s) => Ok (cc_fget s (CtxType t))
           | Some (_, APlain v) => Ok v
           | None =>
               if meta_provides (ckind cls) name then Raise (Unmodelled name)
               else Raise (NoClassAttribute (cname cls) name)
           end
  end.

(** [getattr(i, name)] ([object.__getattribute__]): a data descriptor on
    the type comes first, then the instance [__dict__], then an ordinary
    class attribute. *)
Definition obj_getattr (w : world) (i : nat) (name : string) : res pyval :=
  match inst_of w i with
  | None => Raise dangling
  | Some o =>
      match class_of w (icls o) with
      | None => Raise dangling
      | Some cls =>
          let found := lookup_mro w (cmro cls) name in
          match found with
          | Some (_, ASlot s) => Ok (cc_fget s (CtxObj i))
          | _ =>
              if special_name name then Raise (Unmodelled name)
              else match dget name (idict o) with
                   | Some v => Ok v
                   | None =>
                       match found with
                       | Some (_, APlain v) => Ok v
                       | _ => Raise (NoInstanceAttribute (cname cls) name)
                       end
                   end
          end
      end
  end.

(** ** Writing and deleting attributes: a step yields the new world and
    the exception raised, if any. *)

Definition outcome : Type := (world * option pyerr)%type.

(** [i.name = v]: [class_constant.__set__] raises; otherwise the value is
    stored in [i.__dict__] (an instance of [object] has none). *)
Definition obj_setattr (w : world) (i : nat) (name : string) (v : pyval) : outcome :=
  match inst_of w i with
  | None => (w, Some dangling)
  | Some o =>
      match class_of w (icls o) with
      | None => (w, Some dangling)
      | Some cls =>
          match lookup_mro w (cmro cls) name with
          | Some (_, ASlot s) =>
              (w, Some (AttributeError (cc_repr s ++ " of '" ++ cname cls ++ "' object cannot be modified.")%string))
          | _ =>
              if special_name name then (w, Some (Unmodelled name))
              else match ckind cls with
                   | Builtin => (w, Some (NoInstanceAttribute (cname cls) name))
                   | _ => (update_inst w i (fun o => with_idict (dset name v (idict o)) o), None)
                   end
          end
      end
  end.

(** [del i.name]: [class_constant.__delete__] raises; otherwise the entry
    of [i.__dict__] is removed. *)
Definition obj_delattr (w : world) (i : nat) (name : string) : outcome :=
  match inst_of w i with
  | None => (w, Some dangling)
  | Some o =>
      match class_of w (icls o) with
      | None => (w, Some dangling)
      | Some cls =>
          match lookup_mro w (cmro cls) name with
          | Some (_, ASlot s) =>
              (w, Some (AttributeError (cc_repr s ++ " of '" ++ cname cls ++ "' object cannot be deleted.")%string))
          | _ =>
              if special_name name then (w, Some (Unmodelled name))
              else match dget name (idict o) with
                   | Some _ => (update_inst w i (fun o => with_idict (ddel name (idict o)) o), None)
                   | None => (w, Some (NoInstanceAttribute (cname cls) name))
                   end
          end
      end
  end.

(** [i.__dict__[name] = v]: a write into the instance storage that does
    not go through attribute assignment; an instance of [object] has no
    [__dict__] (reading [i.__dict__] raises), and nothing changes. *)
Definition inst_dict_set (w : world) (i : nat) (name : string) (v : pyval) : world :=
  match inst_of w i with
  | Some o =>
      match class_of w (icls o) with
      | Some cls =>
          match ckind cls with
          | Builtin => w
          | _ => update_inst w i (fun o => with_idict (dset name v (idict o)) o)
          end
      | None => w
      end
  | None => w
  end.

Definition with_cname (n : string) (cls : pyclass) : pyclass :=
  mk_class n (ckind cls) (cmro cls) (cdict cls).

(** [type.__setattr__(cls, name, value)]: [object] is immutable;
    [__name__] goes through the metatype's setter, which renames the
    class; any other name is stored in [cls.__dict__]. *)
Definition type_setattr_base (w : world) (t : nat) (name : string) (v : attr) : outcome :=
  match class_of w t with
  | None => (w, Some dangling)
  | Some cls =>
      match ckind cls with
      | Builtin =>
          (w, Some (TypeError ("cannot set " ++ py_repr name ++ " attribute of immutable type '" ++ cname cls ++ "'")%string))
      | _ =>
          if String.eqb name "__name__" then
            match v with
            | APlain (VStr n) =>
                if has_nul n then (w, Some (ValueError "type name must not contain null characters"))
                else (update_class w t (with_cname n), None)
            | _ =>
                (w, Some (TypeError ("can only assign string to " ++ cname cls ++ ".__name__, not '" ++ attr_type_name v ++ "'")%string))
            end
          else if special_name name then (w, Some (Unmodelled name))
          else (update_class w t (fun c => with_cdict (dset name v (cdict c)) c), None)
      end
  end.

(** [type.__delattr__(cls, name)]: only the class's own entry can go;
    [__name__] cannot be deleted. *)
Definition type_delattr_base (w : world) (t : nat) (name : string) : outcome :=
  match class_of w t with
  | None => (w, Some dangling)
  | Some cls =>
      match ckind cls with
      | Builtin =>
          (w, Some (TypeError ("cannot set " ++ py_repr name ++ " attribute of immutable type '" ++ cname cls ++ "'")%string))
      | _ =>
          if String.eqb name "__name__" then
            (w, Some (TypeError ("cannot delete '__name__' attribute of immutable type '" ++ cname cls ++ "'")%string))
          else if special_name name then (w, Some (Unmodelled name))
          else match dget name (cdict cls) with
               | Some _ => (update_class w t (fun c => with_cdict (ddel name (cdict c)) c), None)
               | None => (w, Some (NoClassAttribute (cname cls) name))
               end
      end
  end.

(** [cls._is_class_constant] as [MyMeta.__setattr__] and
    [MyMeta.__delattr__] evaluate it: the static method of [MyMeta] is not
    a data descriptor, so a binding of that name along [cls]'s MRO comes
    first (a [class_constant] through its getter); [None] when nothing
    shadows the static method. *)
Definition guard_shadow (w : world) (t : nat) (cls : pyclass) : option pyval :=
  match lookup_mro w (cmro cls) "_is_class_constant" with
  | Some (_, ASlot s) => Some (cc_fget s (CtxType t))
  | Some (_, APlain v) => Some v
  | None => None
  end.

(** [T.name = value]: [MyMeta.__setattr__] on classes built by [MyMeta]
    (calling a shadowing value raises), [type.__setattr__] on the others. *)
Definition type_setattr (w : world) (t : nat) (name : string) (v : attr) : outcome :=
  match class_of w t with
  | None => (w, Some dangling)
  | Some cls =>
      match ckind cls with
      | Meta =>
          match guard_shadow w t cls with
          | Some g => (w, Some (not_callable g))
          | None =>
              if _is_class_constant w name (cmro cls) then
                (w, Some (AttributeError ("Cannot modify class constant '" ++ cname cls ++ "." ++ name ++ "'.")%string))
              else type_setattr_base w t name v
          end
      | _ => type_setattr_base w t name v
      end
  end.

(** [del T.name]: [MyMeta.__delattr__] / [type.__delattr__]. *)
Definition type_delattr (w : world) (t : nat) (name : string) : outcome :=
  match class_of w t with
  | None => (w, Some dangling)
  | Some cls =>
      match ckind cls with
      | Meta =>
          match guard_shadow w t cls with
          | Some g => (w, Some (not_callable g))
          | None =>
              if _is_class_constant w name (cmro cls) then
                (w, Some (AttributeError ("Cannot delete class constant '" ++ cname cls ++ "." ++ name ++ "'.")%string))
              else type_delattr_base w t name
          end
      | _ => type_delattr_base w t name
      end
  end.

(** [T()]: a fresh instance with an empty [__dict__]. *)
Definition new_instance (w : world) (t : nat) : world * nat :=
  (mk_world (wcls w) (winst w ++ [mk_instance t []]), length (winst w)).

(** ** Class creation: [type.__new__] *)

(** The C3 linearisation ([mro_implementation] in CPython): repeatedly take
    the first head, scanning the sequences in order, that occurs in no
    sequence's tail, and remove it from the heads where it sits. *)
Definition in_tail (x : nat) (seqs : list (list nat)) : bool :=
  existsb (fun s => match s with [] => false | _ :: t => existsb (Nat.eqb x) t end) seqs.

Fixpoint find_candidate (heads all : list (list nat)) : option nat :=
  match heads with
  | [] => None
  | [] :: rest => find_candidate rest all
  | (h :: _) :: rest => if in_tail h all then find_candidate rest all else Some h
  end.

Definition drop_head (c : nat) (s : list nat) : list nat :=
  match s with
  | h :: t => if Nat.eqb h c then t else s
  | [] => []
  end.

Fixpoint c3_merge (fuel : nat) (seqs : list (list nat)) : option (list nat) :=
  match fuel with
  | 0 => None
  | S f =>
      if forallb (fun s => match s with [] => true | _ => false end) seqs then Some []
      else match find_candidate seqs seqs with
           | None => None
           | Some c =>
               match c3_merge f (map (drop_head c) seqs) with
               | Some r => Some (c :: r)
               | None => None
               end
           end
  end.

Definition merge_fuel (seqs : list (list nat)) : nat :=
  S (fold_right (fun s n => length s + n) 0 seqs).

Fixpoint mros_of (w : world) (bases : list nat) : option (list (list nat)) :=
  match bases with
  | [] => Some []
  | b :: rest =>
      match class_of w b, mros_of w rest with
      | Some cls, Some ms => Some (cmro cls :: ms)
      | _, _ => None
      end
  end.

Fixpoint has_dup (l : list nat) : bool :=
  match l with
  | [] => false
  | x :: t => existsb (Nat.eqb x) t || has_dup t
  end.

(** The first base listed again later ([check_duplicates]). *)
Fixpoint first_dup (l : list nat) : option nat :=
  match l with
  | [] => None
  | x :: t => if existsb (Nat.eqb x) t then Some x else first_dup t
  end.

Definition class_name (w : world) (c : nat) : string :=
  match class_of w c with Some cls => cname cls | None => EmptyString end.

(** [__set_name__] is called on every [class_constant] of the namespace.
    Each slot reaching [type.__new__] here is a fresh object (made by
    [_make_class_constant]), so renaming a copy is renaming the object. *)
Definition set_names (ns : list (string * attr)) : list (string * attr) :=
  map (fun '(k, a) => match a with
                      | ASlot s => (k, ASlot (mk_class_constant (Some k) (cc_fget s)))
                      | APlain v => (k, APlain v)
                      end) ns.

(** A namespace entry [type.__new__] treats specially ([__slots__],
    [__qualname__], [__init_subclass__], ...); [__name__] is an ordinary
    entry of the new class's [__dict__]. *)
Definition special_entry (e : string * attr) : bool :=
  special_name (fst e) && negb (String.eqb (fst e) "__name__").

(** [type.__new__(meta, name, bases, namespace)]: the new class gets the
    next free identity; no bases means [(object,)].  The namespace holds
    the body's entries besides the implicit [__module__] and
    [__qualname__]. *)
Definition type_new (w : world) (k : kind) (name : string) (bases : list nat)
    (ns : list (string * attr)) : res (world * nat) :=
  let bases := match bases with [] => [0] | _ => bases end in
  let t := length (wcls w) in
  match find special_entry ns with
  | Some (key, _) => Raise (Unmodelled key)
  | None =>
      if has_nul name then Raise (ValueError "type name must not contain null characters")
      else match first_dup bases with
      | Some b => Raise (TypeError ("duplicate base class " ++ class_name w b)%string)
      | None =>
          match mros_of w bases with
          | None => Raise dangling
          | Some ms =>
              let seqs := ms ++ [bases] in
              match c3_merge (merge_fuel seqs) seqs with
              | None => Raise MroConflict
              | Some m =>
                  Ok (mk_world (wcls w ++ [mk_class name k (t :: m) (set_names ns)]) (winst w), t)
              end
          end
      end
  end.

(** ** [MyMeta.__new__] *)

(** [constant_attrs = set(namespace.pop("__constant_attrs__", set()))] *)
Definition declared_constants (ns : list (string * attr)) : res (list string) :=
  match dget "__constant_attrs__" ns with
  | None => Ok []
  | Some (APlain v) =>
      match py_iter v with
      | Some l => Ok (to_set l)
      | None => Raise (not_iterable (py_type_name v))
      end
  | Some (ASlot _) => Raise (not_iterable "class_constant")
  end.

(** One turn of [for attr in constant_attrs]: a [class_constant] already
    there is kept; otherwise [namespace.pop(attr, None)] is wrapped. *)
Definition promote_one (ns : list (string * attr)) (a : string) : list (string * attr) :=
  match dget a ns with
  | Some (ASlot _) => ns
  | found =>
      let value := match found with Some (APlain v) => v | _ => VNone end in
      dset a (ASlot (_make_class_constant value)) (ddel a ns)
  end.

Definition promote_constants (ns : list (string * attr)) : res (list (string * attr) * list string) :=
  match declared_constants ns with
  | Raise e => Raise e
  | Ok cs => Ok (fold_left promote_one cs (ddel "__constant_attrs__" ns), cs)
  end.

(** [for attr, val in cls.__dict__.items(): if isinstance(val, class_constant)] *)
Definition own_constant_names (d : list (string * attr)) : list string :=
  map fst (filter (fun '(_, a) => is_slot (Some a)) d).

(** [getattr(base, "__constants__", set())], iterated by [update]: an
    [AttributeError] gives the default. *)
Definition constants_of (w : world) (b : nat) : res (list string) :=
  match type_getattr w b "__constants__" with
  | Ok v => match py_iter v with
            | Some l => Ok l
            | None => Raise (not_iterable (py_type_name v))
            end
  | Raise (AttributeError _) | Raise (NoClassAttribute _ _)
  | Raise (NoInstanceAttribute _ _) => Ok []
  | Raise e => Raise e
  end.

Fixpoint gather_constants (w : world) (mro : list nat) (acc : list string) : res (list string) :=
  match mro with
  | [] => Ok acc
  | b :: rest =>
      match constants_of w b with
      | Ok l => gather_constants w rest (supdate acc l)
      | Raise e => Raise e
      end
  end.

(** A class body that binds a [class_constant] object written by the user
    (the decorator form).  Such an object may be bound under several
    names or in several classes, and [__set_name__] renames the one
    shared object; object identity of slots is not modelled, so these
    bodies are outside the embedding. *)
Definition body_has_constant (ns : list (string * attr)) : bool :=
  existsb (fun e => is_slot (Some (snd e))) ns.

Definition mymeta_new (w : world) (name : string) (bases : list nat)
    (ns : list (string * attr)) : res (world * nat) :=
  if body_has_constant ns then Raise (Unmodelled "class_constant in class body") else
  match promote_constants ns with
  | Raise e => Raise e
  | Ok (ns', cs) =>
      match type_new w Meta name bases ns' with
      | Raise e => Raise e
      | Ok (w1, t) =>
          match class_of w1 t with
          | None => Raise dangling
          | Some cls =>
              let cs1 := supdate cs (own_constant_names (cdict cls)) in
              match gather_constants w1 (cmro cls) cs1 with
              | Raise e => Raise e
              | Ok cs2 =>
                  match type_setattr w1 t "__constants__" (APlain (VSet (to_set cs2))) with
                  | (w2, None) => Ok (w2, t)
                  | (_, Some e) => Raise e
                  end
              end
          end
      end
  end.

(** A [class] statement: the metaclass is [MyMeta] as soon as one base
    was built by [MyMeta], [type] otherwise. *)
Definition is_meta_class (w : world) (b : nat) : bool :=
  match class_of w b with Some cls => match ckind cls with Meta => true | _ => false end | None => false end.

Definition class_stmt (w : world) (name : string) (bases : list nat)
    (ns : list (string * attr)) : res (world * nat) :=
  if existsb (is_meta_class w) bases then mymeta_new w name bases ns
  else if body_has_constant ns then Raise (Unmodelled "class_constant in class body")
  else type_new w Plain name bases ns.

(** The published constant-name set [T.__constants__] as a list of names
    ([set()] when absent or not iterable). *)
Definition published (w : world) (t : nat) : list string :=
  match constants_of w t with Ok l => l | Raise _ => [] end.

(** ** The notebook's classes *)

Local Open Scope string_scope.

Definition world_of (r : res (world * nat)) : world :=
  match r with Ok (w, _) => w | Raise _ => w_init end.

(** [class A(metaclass=MyMeta): __constant_attrs__ = {"foo"}; foo = 42] *)
Definition ns_A : list (string * attr) :=
  [("__constant_attrs__", APlain (VSet ["foo"])); ("foo", APlain (VInt 42))].
Definition w_A : world := world_of (mymeta_new w_init "A" [] ns_A).
Definition A_id : nat := 1.

(** [class B(A): __constant_attrs__ = {"bar"}; bar = "hello there"] *)
Definition ns_B : list (string * attr) :=
  [("__constant_attrs__", APlain (VSet ["bar"])); ("bar", APlain (VStr "hello there"))].
Definition w_B : world := world_of (class_stmt w_A "B" [A_id] ns_B).
Definition B_id : nat := 2.

(** [class C: pass] *)
Definition w_C : world := world_of (class_stmt w_B "C" [] []).
Definition C_id : nat := 3.

(** [class D(C, B): __constant_attrs__ = {"gaz"}; gaz = -1] *)
Definition ns_D : list (string * attr) :=
  [("__constant_attrs__", APlain (VSet ["gaz"])); ("gaz", APlain (VInt (-1)))].
Definition w_D : world := world_of (class_stmt w_C "D" [C_id; B_id] ns_D).
Definition D_id : nat := 4.
Definition B_class : pyclass :=
  match class_of w_D B_id with Some c => c | None => object_class end.

(** [d = D()] *)
Definition w_d : world := fst (new_instance w_D D_id).
Definition d_id : nat := 0.

(** [class E(B): bar = 5]: a subclass body rebinding an inherited constant
    name to an ordinary value ([E] gets [MyMeta] from [B]); [e = E()]. *)
Definition w_E : world := world_of (class_stmt w_d "E" [B_id] [("bar", APlain (VInt 5))]).
Definition E_id : nat := 5.
Definition w_e : world := fst (new_instance w_E E_id).
Definition e_id : nat := 1.

(** [class F(A): __constant_attrs__ = {"foo"}; foo = 7]: a subclass
    redeclaring an inherited constant; [f = F()], [a = A()]. *)
Definition w_F : world :=
  world_of (class_stmt w_d "F" [A_id]
              [("__constant_attrs__", APlain (VSet ["foo"])); ("foo", APlain (VInt 7))]).
Definition F_id : nat := 5.
Definition w_f : world := fst (new_instance (fst (new_instance w_F F_id)) A_id).
Definition f_id : nat := 1.
Definition a_id : nat := 2.



Local Close Scope string_scope.

(** ** Well-formed worlds and the worlds a program can reach *)

(** Every class's MRO starts with the class itself, names existing
    classes only, and contains the MRO of each of its members. *)
Definition wf (w : world) : Prop :=
  forall c cls, class_of w c = Some cls ->
    hd_error (cmro cls) = Some c /\
    (forall c', In c' (cmro cls) ->
       exists cls', class_of w c' = Some cls' /\ incl (cmro cls') (cmro cls)).



(** Two worlds whose classes have the same MROs. *)
Definition same_mros (w w' : world) : Prop :=
  forall c, option_map cmro (class_of w' c) = option_map cmro (class_of w c).



(** Worlds reachable from [object] alone by these steps: class statements
    and direct [MyMeta(name, bases, namespace)] calls (whose namespaces are
    dictionaries: no repeated key, and no [__constants__] of their own),
    instance creation, [i.n = v] and [del i.n], writes into instance
    storage, and [T.n = v] and [del T.n] for a name [n] that is neither
    [__constants__] nor special.  Not steps: assigning or deleting
    [T.__constants__], any special name on a class ([__bases__],
    [__name__], ...), and calling [type.__setattr__] or [type.__delattr__]
    directly, which skips [MyMeta]'s guard (see
    [bypass_removes_constant]). *)
Inductive reachable : world -> Prop :=
| reach_init : reachable w_init
| reach_class w w' name bases ns t :
    reachable w -> NoDup (map fst ns) -> dget "__constants__"%string ns = None ->
    class_stmt w name bases ns = Ok (w', t) -> reachable w'
| reach_mymeta w w' name bases ns t :
    reachable w -> NoDup (map fst ns) -> dget "__constants__"%string ns = None ->
    mymeta_new w name bases ns = Ok (w', t) -> reachable w'
| reach_instance w t : reachable w -> reachable (fst (new_instance w t))
| reach_obj_set w i n v : reachable w -> reachable (fst (obj_setattr w i n v))
| reach_obj_del w i n : reachable w -> reachable (fst (obj_delattr w i n))
| reach_dict_set w i n v : reachable w -> reachable (inst_dict_set w i n v)
| reach_type_set w t n v :
    reachable w -> n <> "__constants__"%string -> special_name n = false ->
    reachable (fst (type_setattr w t n v))
| reach_type_del w t n :
    reachable w -> n <> "__constants__"%string -> special_name n = false ->
    reachable (fst (type_delattr w t n)).

(** ** Basic facts *)

Lemma lookup_mro_slot_is_class_constant w mro n c s :
  lookup_mro w mro n = Some (c, ASlot s) -> _is_class_constant w n mro = true.
Proof.
  induction mro as [|c0 rest IH]; simpl; [discriminate|].
  unfold _is_class_constant in *; simpl.
  destruct (class_of w c0) as [cls|]; [|exact IH].
  destruct (dget n (cdict cls)) as [a|] eqn:Hd.
  - intros H; inversion H; subst. reflexivity.
  - intros H; rewrite IH by exact H. apply orb_true_r.
Qed.

Lemma dget_dset_eq {V} k (v : V) d : dget k (dset k v d) = Some v.
Proof.
  induction d as [|[k' v'] t IH]; simpl.
  - rewrite String.eqb_refl. reflexivity.
  - destruct (String.eqb k k') eqn:E; simpl.
    + rewrite String.eqb_refl. reflexivity.
    + rewrite E. exact IH.
Qed.

Lemma dget_dset_neq {V} k k2 (v : V) d : k2 <> k -> dget k2 (dset k v d) = dget k2 d.
Proof.
  intros Hne. induction d as [|[k' v'] t IH]; simpl.
  - apply String.eqb_neq in Hne. rewrite Hne. reflexivity.
  - destruct (String.eqb k k') eqn:E; simpl.
    + apply String.eqb_eq in E; subst k'.
      apply String.eqb_neq in Hne. rewrite Hne. reflexivity.
    + destruct (String.eqb k2 k'); [reflexivity|exact IH].
Qed.

Lemma dget_ddel_neq {V} k k2 (d : list (string * V)) : k2 <> k -> dget k2 (ddel k d) = dget k2 d.
Proof.
  intros Hne. induction d as [|[k' v'] t IH]; simpl; [reflexivity|].
  destruct (String.eqb k k') eqn:E; simpl.
  - apply String.eqb_eq in E; subst k'.
    apply String.eqb_neq in Hne. rewrite Hne. exact IH.
  - destruct (String.eqb k2 k'); [reflexivity|exact IH].
Qed.


Lemma nth_error_replace_nth_eq {A} n (x : A) l :
  n < length l -> nth_error (replace_nth n x l) n = Some x.
Proof.
  revert n; induction l as [|y t IH]; intros n Hn; simpl in *; [lia|].
  destruct n; simpl; [reflexivity|]. apply IH. lia.
Qed.

Lemma nth_error_replace_nth_neq {A} n m (x : A) l :
  m <> n -> nth_error (replace_nth n x l) m = nth_error l m.
Proof.
  revert n m; induction l as [|y t IH]; intros n m Hne; [destruct n; reflexivity|].
  destruct n, m; simpl; try reflexivity; [lia|]. apply IH. lia.
Qed.

Lemma class_of_update_class_eq w t f cls :
  class_of w t = Some cls -> class_of (update_class w t f) t = Some (f cls).
Proof.
  unfold update_class. intros H. rewrite H. unfold class_of in *; simpl.
  apply nth_error_replace_nth_eq. apply nth_error_Some. congruence.
Qed.

Lemma class_of_update_class_neq w t f c :
  c <> t -> class_of (update_class w t f) c = class_of w c.
Proof.
  unfold update_class. intros H. destruct (class_of w t); [|reflexivity].
  unfold class_of; simpl. apply nth_error_replace_nth_neq. exact H.
Qed.

Lemma class_of_update_inst w i f c : class_of (update_inst w i f) c = class_of w c.
Proof. unfold update_inst. destruct (inst_of w i); reflexivity. Qed.

Lemma inst_dict_set_cases w i n v :
  inst_dict_set w i n v = w \/
  inst_dict_set w i n v = update_inst w i (fun o => with_idict (dset n v (idict o)) o).
Proof.
  unfold inst_dict_set. destruct (inst_of w i) as [o|]; [|auto].
  destruct (class_of w (icls o)) as [cls|]; [|auto]. destruct (ckind cls); auto.
Qed.

Lemma class_of_inst_dict_set w i n v c : class_of (inst_dict_set w i n v) c = class_of w c.
Proof. destruct (inst_dict_set_cases w i n v) as [-> | ->]; [reflexivity|apply class_of_update_inst]. Qed.

Lemma inst_of_update_inst_eq w i f o :
  inst_of w i = Some o -> inst_of (update_inst w i f) i = Some (f o).
Proof.
  unfold update_inst. intros H. rewrite H. unfold inst_of in *; simpl.
  apply nth_error_replace_nth_eq. apply nth_error_Some. congruence.
Qed.

(** Lookups only depend on the classes they visit. *)
Lemma lookup_mro_ext w w' mro n :
  (forall c, In c mro -> class_of w c = class_of w' c) ->
  lookup_mro w mro n = lookup_mro w' mro n.
Proof.
  induction mro as [|c rest IH]; intros H; simpl; [reflexivity|].
  rewrite (H c (or_introl eq_refl)).
  destruct (class_of w' c) as [cls|];
    [destruct (dget n (cdict cls)); [reflexivity|]|];
    apply IH; intros; apply H; right; assumption.
Qed.


Lemma special_name_not_name n : special_name n = false -> String.eqb n "__name__" = false.
Proof. intros H. destruct (String.eqb_spec n "__name__") as [->|_]; [discriminate|reflexivity]. Qed.

Lemma type_getattr_lookup w t cls n :
  class_of w t = Some cls -> special_name n = false ->
  type_getattr w t n =
    match lookup_mro w (cmro cls) n with
    | Some (_, ASlot s) => Ok (cc_fget s (CtxType t))
    | Some (_, APlain v) => Ok v
    | None =>
        if meta_provides (ckind cls) n then Raise (Unmodelled n)
        else Raise (NoClassAttribute (cname cls) n)
    end.
Proof. intros Ht Hs. unfold type_getattr. rewrite Ht, (special_name_not_name _ Hs), Hs. reflexivity. Qed.

Lemma type_getattr_slot w t cls n c s :
  class_of w t = Some cls -> special_name n = false -> lookup_mro w (cmro cls) n = Some (c, ASlot s) ->
  type_getattr w t n = Ok (cc_fget s (CtxType t)).
Proof. intros Ht Hs Hl. rewrite (type_getattr_lookup _ _ _ _ Ht Hs), Hl. reflexivity. Qed.

Lemma published_own w c cls rest v l :
  class_of w c = Some cls -> cmro cls = c :: rest ->
  dget "__constants__"%string (cdict cls) = Some (APlain v) -> py_iter v = Some l ->
  published w c = l.
Proof.
  intros Hc Hm Hd Hv. unfold published, constants_of.
  rewrite (type_getattr_lookup _ _ _ "__constants__"%string Hc eq_refl), Hm. simpl. rewrite Hc, Hd, Hv. reflexivity.
Qed.

Lemma type_setattr_base_ok w t cls n v :
  class_of w t = Some cls -> ckind cls <> Builtin -> special_name n = false ->
  type_setattr_base w t n v = (update_class w t (fun c => with_cdict (dset n v (cdict c)) c), None).
Proof.
  intros Ht Hk Hs. unfold type_setattr_base. rewrite Ht, (special_name_not_name _ Hs), Hs.
  destruct (ckind cls); [congruence|reflexivity|reflexivity].
Qed.

Lemma type_delattr_base_ok w t cls n :
  class_of w t = Some cls -> ckind cls <> Builtin -> special_name n = false ->
  type_delattr_base w t n =
    match dget n (cdict cls) with
    | Some _ => (update_class w t (fun c => with_cdict (ddel n (cdict c)) c), None)
    | None => (w, Some (NoClassAttribute (cname cls) n))
    end.
Proof.
  intros Ht Hk Hs. unfold type_delattr_base. rewrite Ht, (special_name_not_name _ Hs), Hs.
  destruct (ckind cls); [congruence|reflexivity|reflexivity].
Qed.

Lemma guard_shadow_none w t cls :
  lookup_mro w (cmro cls) "_is_class_constant"%string = None -> guard_shadow w t cls = None.
Proof. intros H. unfold guard_shadow. rewrite H. reflexivity. Qed.

(** [MyMeta]'s guard, unshadowed and not firing, hands over to [type]. *)
Lemma type_setattr_unguarded w t cls n v :
  class_of w t = Some cls -> guard_shadow w t cls = None ->
  _is_class_constant w n (cmro cls) = false ->
  type_setattr w t n v = type_setattr_base w t n v.
Proof. intros Ht Hg Hc. unfold type_setattr. rewrite Ht, Hg, Hc. destruct (ckind cls); reflexivity. Qed.

Lemma type_delattr_unguarded w t cls n :
  class_of w t = Some cls -> guard_shadow w t cls = None ->
  _is_class_constant w n (cmro cls) = false ->
  type_delattr w t n = type_delattr_base w t n.
Proof. intros Ht Hg Hc. unfold type_delattr. rewrite Ht, Hg, Hc. destruct (ckind cls); reflexivity. Qed.

Lemma obj_getattr_slot w i o cls n c s :
  inst_of w i = Some o -> class_of w (icls o) = Some cls ->
  lookup_mro w (cmro cls) n = Some (c, ASlot s) ->
  obj_getattr w i n = Ok (cc_fget s (CtxObj i)).
Proof. intros Hi Ht Hl. unfold obj_getattr. rewrite Hi, Ht, Hl. reflexivity. Qed.

Lemma str_append_assoc (a b c : string) :
  String.append (String.append a b) c = String.append a (String.append b c).
Proof. induction a as [|x a IH]; simpl; [reflexivity|]. rewrite IH. reflexivity. Qed.

Local Open Scope string_scope.

(** * C1: constants cannot be assigned or deleted *)

(** C1 (counterexample).  [bar] is published on [E] ([class E(B): bar = 5]),
    yet [e.bar = "x"] succeeds: the ordinary value in [E.__dict__] hides
    [B]'s [class_constant] from the instance path. *)
Lemma constant_name_assignable_through_instance :
  In "bar" (published w_e E_id) /\
  inst_of w_e e_id = Some (mk_instance E_id []) /\
  snd (obj_setattr w_e e_id "bar" (VStr "x")) = None.
Proof. vm_compute. auto. Qed.

(** C1 (amended).  When [n] resolves along the MRO of the [MyMeta] class
    [t] to a [class_constant], and no class of that MRO binds
    [_is_class_constant] (which would shadow [MyMeta]'s guard), each of
    [i.n = v], [del i.n], [t.n = a] and [del t.n], for an instance [i] of
    [t], raises an [AttributeError] (modify / delete) and leaves the world
    unchanged. *)
Theorem constant_ops_raise w t cls i o n c s v a
  (Ht : class_of w t = Some cls) (Hk : ckind cls = Meta)
  (Hi : inst_of w i = Some o) (Hio : icls o = t)
  (Hl : lookup_mro w (cmro cls) n = Some (c, ASlot s))
  (Hng : lookup_mro w (cmro cls) "_is_class_constant" = None) :
  obj_setattr w i n v =
    (w, Some (AttributeError (cc_repr s ++ " of '" ++ cname cls ++ "' object cannot be modified."))) /\
  obj_delattr w i n =
    (w, Some (AttributeError (cc_repr s ++ " of '" ++ cname cls ++ "' object cannot be deleted."))) /\
  type_setattr w t n a =
    (w, Some (AttributeError ("Cannot modify class constant '" ++ cname cls ++ "." ++ n ++ "'."))) /\
  type_delattr w t n =
    (w, Some (AttributeError ("Cannot delete class constant '" ++ cname cls ++ "." ++ n ++ "'."))).
Proof.
  subst t.
  pose proof (lookup_mro_slot_is_class_constant _ _ _ _ _ Hl) as Hcc.
  unfold obj_setattr, obj_delattr, type_setattr, type_delattr, guard_shadow.
  rewrite Hi, Ht, Hl, Hk, Hng, Hcc. repeat split.
Qed.

Lemma constant_ops_raise_witness :
  class_of w_d D_id = Some (mk_class "D" Meta [4; 3; 2; 1; 0]
      [("gaz", ASlot (mk_class_constant (Some "gaz") (fun _ => VInt (-1))));
       ("__constants__", APlain (VSet ["gaz"; "bar"; "foo"]))]) /\
  obj_setattr w_d d_id "bar" (VStr "hello") =
    (w_d, Some (AttributeError "class constant 'bar' of 'D' object cannot be modified.")) /\
  obj_delattr w_d d_id "bar" =
    (w_d, Some (AttributeError "class constant 'bar' of 'D' object cannot be deleted.")) /\
  type_setattr w_d D_id "bar" (APlain (VStr "hello")) =
    (w_d, Some (AttributeError "Cannot modify class constant 'D.bar'.")) /\
  type_delattr w_d D_id "bar" =
    (w_d, Some (AttributeError "Cannot delete class constant 'D.bar'.")).
Proof.
  split; [reflexivity|].
  exact (constant_ops_raise w_d D_id
           (mk_class "D" Meta [4; 3; 2; 1; 0]
              [("gaz", ASlot (mk_class_constant (Some "gaz") (fun _ => VInt (-1))));
               ("__constants__", APlain (VSet ["gaz"; "bar"; "foo"]))])
           d_id (mk_instance D_id []) "bar" B_id
           (mk_class_constant (Some "bar") (fun _ => VStr "hello there"))
           (VStr "hello") (APlain (VStr "hello")) eq_refl eq_refl eq_refl eq_refl eq_refl eq_refl).
Defined.

(** * C3: which value a read returns *)

(** C3 (counterexample).  [bar] is published on [E] and the most specific
    class holding a [class_constant] for it is [B] (value ["hello there"]),
    but [E.bar] and [e.bar] read the ordinary value [5] of [E]'s body. *)
Lemma plain_rebinding_shadows_constant :
  In "bar" (published w_e E_id) /\
  lookup_mro w_e [E_id; B_id; A_id; 0] "bar" = Some (E_id, APlain (VInt 5)) /\
  lookup_mro w_e [B_id; A_id; 0] "bar" =
    Some (B_id, ASlot (mk_class_constant (Some "bar") (fun _ => VStr "hello there"))) /\
  type_getattr w_e E_id "bar" = Ok (VInt 5) /\
  obj_getattr w_e e_id "bar" = Ok (VInt 5).
Proof. vm_compute. repeat split; auto. Qed.

(** C3 (amended).  For a name [n] that is not special, let the first
    class of [t]'s MRO binding [n] in its own namespace hold a
    [class_constant]: a read of [n] through [t] or through an instance of
    [t] returns the constant's value (the getter called with the owner
    class, or with the instance).  Let it hold an ordinary value [v]
    instead: [t.n] reads [v], and an instance reads its own [__dict__]
    entry for [n] when it has one, [v] otherwise.  [t.__name__] reads the
    class's name.  On the notebook's classes: [A.foo == 42],
    [a.foo == 42], [d.bar == D.bar == "hello there"]; a subclass [F]
    redeclaring [foo = 7] as a constant reads [7] through itself and its
    instances while [A] still reads [42]. *)
Theorem constant_read_resolution w t cls n c :
  class_of w t = Some cls -> special_name n = false ->
  (forall s, lookup_mro w (cmro cls) n = Some (c, ASlot s) ->
     type_getattr w t n = Ok (cc_fget s (CtxType t)) /\
     forall i o, inst_of w i = Some o -> icls o = t -> obj_getattr w i n = Ok (cc_fget s (CtxObj i))) /\
  (forall v, lookup_mro w (cmro cls) n = Some (c, APlain v) ->
     type_getattr w t n = Ok v /\
     forall i o, inst_of w i = Some o -> icls o = t ->
       obj_getattr w i n = match dget n (idict o) with Some u => Ok u | None => Ok v end) /\
  type_getattr w t "__name__" = Ok (VStr (cname cls)) /\
  type_getattr w_f A_id "foo" = Ok (VInt 42) /\ obj_getattr w_f a_id "foo" = Ok (VInt 42) /\
  obj_getattr w_d d_id "bar" = Ok (VStr "hello there") /\
  type_getattr w_d D_id "bar" = Ok (VStr "hello there") /\
  type_getattr w_f F_id "foo" = Ok (VInt 7) /\ obj_getattr w_f f_id "foo" = Ok (VInt 7).
Proof.
  intros Ht Hs. split; [|split; [|split]].
  - intros s Hl. split; [eapply type_getattr_slot; eassumption|].
    intros i o Hi Hio. subst t. eapply obj_getattr_slot; eassumption.
  - intros v Hl. rewrite (type_getattr_lookup _ _ _ _ Ht Hs), Hl. split; [reflexivity|].
    intros i o Hi Hio. subst t. unfold obj_getattr. rewrite Hi, Ht, Hl, Hs.
    destruct (dget n (idict o)); reflexivity.
  - unfold type_getattr. rewrite Ht. reflexivity.
  - vm_compute. repeat split.
Qed.

Lemma constant_read_resolution_witness :
  class_of w_d D_id <> None /\
  type_getattr w_d D_id "gaz" = Ok (VInt (-1)) /\
  obj_getattr w_d d_id "gaz" = Ok (VInt (-1)).
Proof.
  split; [vm_compute; discriminate|].
  destruct (constant_read_resolution w_d D_id
              (mk_class "D" Meta [4; 3; 2; 1; 0]
                 [("gaz", ASlot (mk_class_constant (Some "gaz") (fun _ => VInt (-1))));
                  ("__constants__", APlain (VSet ["gaz"; "bar"; "foo"]))])
              "gaz" D_id eq_refl eq_refl) as [Hs _].
  destruct (Hs (mk_class_constant (Some "gaz") (fun _ => VInt (-1))) eq_refl) as [H1 H2].
  split; [exact H1|].
  exact (H2 d_id (mk_instance D_id []) eq_refl eq_refl).
Defined.

(** * C4: instance storage cannot hide a constant *)

(** C4 (counterexample).  On [e], an instance of [E] whose body rebinds the
    published name [bar] to [5], a value written straight into
    [e.__dict__] is what [e.bar] then returns. *)
Lemma instance_storage_hides_rebound_name :
  In "bar" (published w_e E_id) /\
  obj_getattr w_e e_id "bar" = Ok (VInt 5) /\
  obj_getattr (inst_dict_set w_e e_id "bar" (VStr "hello")) e_id "bar" = Ok (VStr "hello").
Proof. vm_compute. repeat split; auto. Qed.

(** C4 (amended).  When [n] resolves along the MRO of [type(i)] to a
    [class_constant], writing any value under [n] into [i.__dict__] leaves
    the value read by [i.n] unchanged. *)
Theorem slot_beats_instance_storage w i o cls n c s v :
  inst_of w i = Some o -> class_of w (icls o) = Some cls ->
  lookup_mro w (cmro cls) n = Some (c, ASlot s) ->
  obj_getattr (inst_dict_set w i n v) i n = obj_getattr w i n /\
  obj_getattr w i n = Ok (cc_fget s (CtxObj i)).
Proof.
  intros Hi Ht Hl.
  assert (Hw : forall c', class_of (inst_dict_set w i n v) c' = class_of w c')
    by (intros; apply class_of_inst_dict_set).
  rewrite (obj_getattr_slot w i o cls n c s Hi Ht Hl). split; [|reflexivity].
  destruct (inst_dict_set_cases w i n v) as [Hd|Hd];
    [rewrite Hd; exact (obj_getattr_slot w i o cls n c s Hi Ht Hl)|].
  rewrite Hd in Hw |- *.
  apply (obj_getattr_slot _ i (with_idict (dset n v (idict o)) o) cls n c s).
  - exact (inst_of_update_inst_eq w i (fun o => with_idict (dset n v (idict o)) o) o Hi).
  - simpl. rewrite Hw. exact Ht.
  - rewrite <- Hl. apply lookup_mro_ext. intros; apply Hw.
Qed.

Lemma slot_beats_instance_storage_witness :
  obj_getattr (inst_dict_set w_d d_id "bar" (VStr "hello")) d_id "bar" = Ok (VStr "hello there").
Proof.
  destruct (slot_beats_instance_storage w_d d_id (mk_instance D_id [])
              (mk_class "D" Meta [4; 3; 2; 1; 0]
                 [("gaz", ASlot (mk_class_constant (Some "gaz") (fun _ => VInt (-1))));
                  ("__constants__", APlain (VSet ["gaz"; "bar"; "foo"]))])
              "bar" B_id (mk_class_constant (Some "bar") (fun _ => VStr "hello there"))
              (VStr "hello") eq_refl eq_refl eq_refl) as [H1 H2].
  rewrite H1. exact H2.
Defined.

(** * C5: the error messages *)

(** C5 (counterexample).  The messages of the notebook's own run start
    with [class constant], not [constant]. *)
Lemma error_messages_say_class_constant :
  snd (obj_setattr w_d d_id "bar" (VStr "hello")) =
    Some (AttributeError "class constant 'bar' of 'D' object cannot be modified.") /\
  snd (obj_setattr w_d d_id "bar" (VStr "hello")) <>
    Some (AttributeError "constant 'bar' of 'D' object cannot be modified.") /\
  snd (type_setattr w_d D_id "bar" (APlain (VStr "hello"))) =
    Some (AttributeError "Cannot modify class constant 'D.bar'.") /\
  snd (type_setattr w_d D_id "bar" (APlain (VStr "hello"))) <>
    Some (AttributeError "Cannot modify constant 'D.bar'.").
Proof. vm_compute. repeat split; discriminate. Qed.

(** C5 (amended).  For a [class_constant] bound to the name [n] (by
    [__set_name__]), found along the MRO of the [MyMeta] class [t], when
    no class of that MRO binds [_is_class_constant], the four violations
    raise exactly
    ["class constant '<n>' of '<t>' object cannot be modified."],
    ["class constant '<n>' of '<t>' object cannot be deleted."],
    ["Cannot modify class constant '<t>.<n>'."] and
    ["Cannot delete class constant '<t>.<n>'."]; the slot renders as
    ["class constant '<n>'"]. *)
Theorem constant_error_messages w t cls i o n c s v a :
  class_of w t = Some cls -> ckind cls = Meta ->
  inst_of w i = Some o -> icls o = t ->
  lookup_mro w (cmro cls) n = Some (c, ASlot s) -> cc_name s = Some n ->
  lookup_mro w (cmro cls) "_is_class_constant" = None ->
  cc_repr s = "class constant '" ++ n ++ "'" /\
  snd (obj_setattr w i n v) =
    Some (AttributeError ("class constant '" ++ n ++ "' of '" ++ cname cls ++ "' object cannot be modified.")) /\
  snd (obj_delattr w i n) =
    Some (AttributeError ("class constant '" ++ n ++ "' of '" ++ cname cls ++ "' object cannot be deleted.")) /\
  snd (type_setattr w t n a) =
    Some (AttributeError ("Cannot modify class constant '" ++ cname cls ++ "." ++ n ++ "'.")) /\
  snd (type_delattr w t n) =
    Some (AttributeError ("Cannot delete class constant '" ++ cname cls ++ "." ++ n ++ "'.")).
Proof.
  intros Ht Hk Hi Hio Hl Hn Hng.
  assert (Hr : cc_repr s = "class constant '" ++ n ++ "'")
    by (unfold cc_repr; rewrite Hn; reflexivity).
  subst t.
  pose proof (lookup_mro_slot_is_class_constant _ _ _ _ _ Hl) as Hcc.
  unfold obj_setattr, obj_delattr, type_setattr, type_delattr, guard_shadow.
  rewrite Hi, Ht, Hl, Hk, Hng, Hcc, Hr. simpl.
  rewrite !str_append_assoc. simpl. repeat split.
Qed.

Lemma constant_error_messages_witness :
  snd (obj_delattr w_d d_id "gaz") =
    Some (AttributeError "class constant 'gaz' of 'D' object cannot be deleted.") /\
  snd (type_delattr w_d D_id "gaz") = Some (AttributeError "Cannot delete class constant 'D.gaz'.").
Proof.
  destruct (constant_error_messages w_d D_id
              (mk_class "D" Meta [4; 3; 2; 1; 0]
                 [("gaz", ASlot (mk_class_constant (Some "gaz") (fun _ => VInt (-1))));
                  ("__constants__", APlain (VSet ["gaz"; "bar"; "foo"]))])
              d_id (mk_instance D_id []) "gaz" D_id
              (mk_class_constant (Some "gaz") (fun _ => VInt (-1)))
              (VInt 0) (APlain (VInt 0)) eq_refl eq_refl eq_refl eq_refl eq_refl eq_refl eq_refl)
    as [_ [_ [H3 [_ H5]]]].
  split; [exact H3 | exact H5].
Defined.

(** * C6: the published name set is an ordinary attribute *)

(** C6 (counterexample).  After [D] is built, [D.__constants__ = set()]
    succeeds and [D]'s published set is then empty. *)
Lemma published_set_reassignable :
  published w_d D_id = ["gaz"; "bar"; "foo"] /\
  snd (type_setattr w_d D_id "__constants__" (APlain (VSet []))) = None /\
  published (fst (type_setattr w_d D_id "__constants__" (APlain (VSet [])))) D_id = [] /\
  snd (type_delattr w_d D_id "__constants__") = None.
Proof. vm_compute. repeat split. Qed.

(** C6 (amended).  [T.__constants__] is guarded like any other name: as
    long as no class of the MRO of the [MyMeta] class [t] holds a
    [class_constant] under ["__constants__"] and none binds
    [_is_class_constant], assigning a set to it succeeds and becomes [t]'s
    published set, and deleting [t]'s own entry succeeds. *)
Theorem published_set_unprotected w t cls rest :
  class_of w t = Some cls -> ckind cls = Meta -> cmro cls = t :: rest ->
  _is_class_constant w "__constants__" (cmro cls) = false ->
  lookup_mro w (cmro cls) "_is_class_constant" = None ->
  (forall l, snd (type_setattr w t "__constants__" (APlain (VSet l))) = None /\
             published (fst (type_setattr w t "__constants__" (APlain (VSet l)))) t = l) /\
  (dget "__constants__" (cdict cls) <> None -> snd (type_delattr w t "__constants__") = None).
Proof.
  intros Ht Hk Hm Hg Hng. apply (guard_shadow_none w t) in Hng.
  assert (Hb : ckind cls <> Builtin) by congruence.
  split.
  - intros l. rewrite (type_setattr_unguarded _ _ _ _ _ Ht Hng Hg),
                      (type_setattr_base_ok _ _ _ "__constants__" _ Ht Hb eq_refl).
    split; [reflexivity|].
    set (f := fun c => with_cdict (dset "__constants__" (APlain (VSet l)) (cdict c)) c).
    pose proof (class_of_update_class_eq w t f cls Ht) as Ht'.
    apply (published_own _ _ _ rest (VSet l) l Ht'); [exact Hm| |reflexivity].
    apply dget_dset_eq.
  - intros Hd. rewrite (type_delattr_unguarded _ _ _ _ Ht Hng Hg),
                       (type_delattr_base_ok _ _ _ "__constants__" Ht Hb eq_refl).
    destruct (dget "__constants__" (cdict cls)); [reflexivity|congruence].
Qed.

Lemma published_set_unprotected_witness :
  published (fst (type_setattr w_d B_id "__constants__" (APlain (VSet ["zzz"])))) B_id = ["zzz"].
Proof.
  destruct (published_set_unprotected w_d B_id
              (mk_class "B" Meta [2; 1; 0]
                 [("bar", ASlot (mk_class_constant (Some "bar") (fun _ => VStr "hello there")));
                  ("__constants__", APlain (VSet ["bar"; "foo"]))])
              [1; 0] eq_refl eq_refl eq_refl eq_refl eq_refl) as [H _].
  exact (proj2 (H ["zzz"])).
Defined.

(** * C9: when the class-level guard fires *)

(** C9 (counterexample).  [bar] is published on [E] but resolves along
    [E]'s MRO to the ordinary value [5], not to a [class_constant];
    [E.bar = 1] and [del E.bar] still raise, because [B] holds one. *)
Lemma guard_blocks_shadowed_name :
  In "bar" (published w_e E_id) /\
  lookup_mro w_e [E_id; B_id; A_id; 0] "bar" = Some (E_id, APlain (VInt 5)) /\
  snd (type_setattr w_e E_id "bar" (APlain (VInt 1))) =
    Some (AttributeError "Cannot modify class constant 'E.bar'.") /\
  snd (type_delattr w_e E_id "bar") =
    Some (AttributeError "Cannot delete class constant 'E.bar'.").
Proof. vm_compute. repeat split; auto. Qed.

(** C9 (amended).  On a [MyMeta] class [t] and for a name [n] that is
    not special: when a class of [t]'s MRO binds [_is_class_constant],
    [MyMeta]'s guard calls that binding instead of the static method, and
    [t.n = v] and [del t.n] raise [TypeError] (the value is not callable).
    Otherwise [t.n = v] raises exactly when some class of [t]'s MRO holds
    a [class_constant] under [n] in its own namespace (whether or not it
    is the first binding, and whatever the published set says), and
    stores [n] in [t]'s own namespace when it does not.  [del t.n] raises
    the delete error on the same condition; otherwise it is
    [type.__delattr__], which removes [t]'s own entry when there is one. *)
Theorem type_guard_condition w t cls n v :
  class_of w t = Some cls -> ckind cls = Meta -> special_name n = false ->
  (forall g, guard_shadow w t cls = Some g ->
     type_setattr w t n v = (w, Some (not_callable g)) /\
     type_delattr w t n = (w, Some (not_callable g))) /\
  (lookup_mro w (cmro cls) "_is_class_constant" = None ->
   (snd (type_setattr w t n v) <> None <-> _is_class_constant w n (cmro cls) = true) /\
   (_is_class_constant w n (cmro cls) = true ->
      type_setattr w t n v =
        (w, Some (AttributeError ("Cannot modify class constant '" ++ cname cls ++ "." ++ n ++ "'."))) /\
      type_delattr w t n =
        (w, Some (AttributeError ("Cannot delete class constant '" ++ cname cls ++ "." ++ n ++ "'.")))) /\
   (_is_class_constant w n (cmro cls) = false ->
      type_setattr w t n v = (update_class w t (fun c => with_cdict (dset n v (cdict c)) c), None) /\
      type_delattr w t n = type_delattr_base w t n /\
      (dget n (cdict cls) <> None ->
         type_delattr w t n = (update_class w t (fun c => with_cdict (ddel n (cdict c)) c), None)))).
Proof.
  intros Ht Hk Hs. split.
  { intros g Hg. unfold type_setattr, type_delattr. rewrite Ht, Hk, Hg. auto. }
  intros Hng.
  assert (Hn : guard_shadow w t cls = None) by (unfold guard_shadow; rewrite Hng; reflexivity).
  unfold type_setattr, type_delattr, type_setattr_base, type_delattr_base.
  rewrite Ht, Hk, Hn, (special_name_not_name _ Hs), Hs.
  destruct (_is_class_constant w n (cmro cls)) eqn:Hg.
  - repeat split; try discriminate; intros _; discriminate.
  - repeat split; try (intros H; exfalso; apply H; reflexivity); try discriminate.
    intros Hd. destruct (dget n (cdict cls)); [reflexivity|congruence].
Qed.

Lemma type_guard_condition_witness :
  snd (type_setattr w_d D_id "rate" (APlain (VInt 3))) = None /\
  snd (type_setattr w_d D_id "foo" (APlain (VInt 3))) <> None.
Proof.
  set (clsD := mk_class "D" Meta [4; 3; 2; 1; 0]
                 [("gaz", ASlot (mk_class_constant (Some "gaz") (fun _ => VInt (-1))));
                  ("__constants__", APlain (VSet ["gaz"; "bar"; "foo"]))]).
  destruct (type_guard_condition w_d D_id clsD "rate" (APlain (VInt 3)) eq_refl eq_refl eq_refl)
    as [_ H1]. destruct (H1 eq_refl) as [_ [_ H1']].
  destruct (type_guard_condition w_d D_id clsD "foo" (APlain (VInt 3)) eq_refl eq_refl eq_refl)
    as [_ H2]. destruct (H2 eq_refl) as [H2' _].
  split.
  - rewrite (proj1 (H1' eq_refl)). reflexivity.
  - apply H2'. reflexivity.
Defined.

Local Close Scope string_scope.

(** ** Sets of names *)




(** ** Dictionaries with unique keys *)


Lemma dget_None_not_In {V} k d : dget k d = None -> ~ In k (map (@fst string V) d).
Proof.
  induction d as [|[k' v'] t IH]; simpl; [auto|].
  destruct (String.eqb k k') eqn:E; [discriminate|].
  apply String.eqb_neq in E. intros H [H'|H']; [congruence|exact (IH H H')].
Qed.






(** ** Promoting the declared names *)


Lemma promote_one_other ns a k : k <> a -> dget k (promote_one ns a) = dget k ns.
Proof.
  intros Hne. unfold promote_one. destruct (dget a ns) as [[s|v]|]; try reflexivity;
    rewrite dget_dset_neq, dget_ddel_neq by exact Hne; reflexivity.
Qed.






(** ** [__set_name__] *)





(** ** The C3 merge keeps exactly the classes it is given *)

Lemma find_candidate_head heads all c :
  find_candidate heads all = Some c -> exists s, In s heads /\ hd_error s = Some c.
Proof.
  induction heads as [|s rest IH]; simpl; [discriminate|].
  destruct s as [|h t].
  - intros H. destruct (IH H) as [s' [Hs' Hh]]. eauto.
  - destruct (in_tail h all).
    + intros H. destruct (IH H) as [s' [Hs' Hh]]. eauto.
    + intros H; inversion H; subst. exists (c :: t). split; [left; reflexivity|reflexivity].
Qed.

Lemma In_drop_head x c s : In x (drop_head c s) -> In x s.
Proof. destruct s as [|h t]; simpl; [auto|]. destruct (Nat.eqb h c); simpl; auto. Qed.

Lemma In_drop_head_back x c s : In x s -> x = c \/ In x (drop_head c s).
Proof.
  destruct s as [|h t]; simpl; [intros []|].
  destruct (Nat.eqb h c) eqn:E.
  - apply Nat.eqb_eq in E; subst h. intros [->|H]; auto.
  - intros H. right. exact H.
Qed.

Lemma c3_merge_members fuel seqs r :
  c3_merge fuel seqs = Some r ->
  forall x, In x r <-> exists s, In s seqs /\ In x s.
Proof.
  revert seqs r; induction fuel as [|f IH]; intros seqs r; simpl; [discriminate|].
  destruct (forallb _ seqs) eqn:Hall.
  - intros H; inversion H; subst. intros x. split; [intros []|].
    intros [s [Hs Hx]]. rewrite forallb_forall in Hall. specialize (Hall s Hs).
    destruct s; [destruct Hx|discriminate].
  - destruct (find_candidate seqs seqs) as [c|] eqn:Hc; [|discriminate].
    destruct (c3_merge f (map (drop_head c) seqs)) as [r'|] eqn:Hr; [|discriminate].
    intros H; inversion H; subst r. clear H.
    pose proof (IH _ _ Hr) as Hmem.
    destruct (find_candidate_head _ _ _ Hc) as [s0 [Hs0 Hh0]].
    intros x. simpl. split.
    + intros [->|Hx].
      * exists s0. split; [exact Hs0|]. destruct s0; simpl in Hh0; inversion Hh0; left; reflexivity.
      * apply Hmem in Hx as [s' [Hs' Hx]]. apply in_map_iff in Hs' as [s [<- Hs]].
        exists s. split; [exact Hs|]. eapply In_drop_head; eassumption.
    + intros [s [Hs Hx]]. destruct (In_drop_head_back x c s Hx) as [->|Hx']; [left; reflexivity|].
      right. apply Hmem. exists (drop_head c s). split; [apply in_map; exact Hs|exact Hx'].
Qed.

Lemma mros_of_spec w bs ms :
  mros_of w bs = Some ms ->
  (forall s, In s ms -> exists b cls, In b bs /\ class_of w b = Some cls /\ s = cmro cls) /\
  (forall b, In b bs -> exists cls, class_of w b = Some cls /\ In (cmro cls) ms).
Proof.
  revert ms; induction bs as [|b rest IH]; intros ms; simpl.
  - intros H; inversion H; subst. split; intros ? [].
  - destruct (class_of w b) as [cls|] eqn:Hb; [|discriminate].
    destruct (mros_of w rest) as [ms'|] eqn:Hr; [|discriminate].
    intros H; inversion H; subst. destruct (IH ms' eq_refl) as [H1 H2]. split.
    + intros s Hs. destruct Hs as [Hs|Hs]; [subst s; exists b, cls; split; [left; reflexivity|auto]|].
      destruct (H1 s Hs) as [b1 [cls1 [? [? ?]]]]. exists b1, cls1. split; [right; assumption|auto].
    + intros b1 Hb1. destruct Hb1 as [Hb1|Hb1]; [subst b1; exists cls; split; [assumption|left; reflexivity]|].
      destruct (H2 b1 Hb1) as [cls1 [? ?]]. exists cls1. split; [assumption|right; assumption].
Qed.

(** ** What [type.__new__] builds *)

Lemma type_new_inv w k name bases ns w1 t :
  type_new w k name bases ns = Ok (w1, t) ->
  t = length (wcls w) /\
  exists bs ms m,
    bs = match bases with [] => [0] | _ => bases end /\
    mros_of w bs = Some ms /\
    c3_merge (merge_fuel (ms ++ [bs])) (ms ++ [bs]) = Some m /\
    w1 = mk_world (wcls w ++ [mk_class name k (t :: m) (set_names ns)]) (winst w).
Proof.
  unfold type_new.
  set (bs := match bases with [] => [0] | _ => bases end).
  destruct (find special_entry ns) as [[? ?]|]; [discriminate|].
  destruct (has_nul name); [discriminate|].
  destruct (first_dup bs); [discriminate|].
  destruct (mros_of w bs) as [ms|] eqn:Hms; [|discriminate].
  destruct (c3_merge _ _) as [m|] eqn:Hm; [|discriminate].
  intros H; inversion H; subst. split; [reflexivity|].
  exists bs, ms, m. auto.
Qed.

Lemma class_of_snoc_old w x c : c < length (wcls w) -> class_of (mk_world (wcls w ++ [x]) (winst w)) c = class_of w c.
Proof. intros H. unfold class_of; simpl. apply nth_error_app1. exact H. Qed.

Lemma class_of_snoc_new w x : class_of (mk_world (wcls w ++ [x]) (winst w)) (length (wcls w)) = Some x.
Proof. unfold class_of; simpl. rewrite nth_error_app2, Nat.sub_diag by lia. reflexivity. Qed.

Lemma class_of_snoc_inv w x c cls :
  class_of (mk_world (wcls w ++ [x]) (winst w)) c = Some cls ->
  (c < length (wcls w) /\ class_of w c = Some cls) \/ (c = length (wcls w) /\ cls = x).
Proof.
  unfold class_of; simpl. intros H.
  destruct (Nat.lt_ge_cases c (length (wcls w))) as [Hl|Hl].
  - left. rewrite nth_error_app1 in H by exact Hl. auto.
  - right. rewrite nth_error_app2 in H by exact Hl.
    destruct (c - length (wcls w)) eqn:E; simpl in H; [|destruct n; discriminate].
    inversion H; subst. split; [lia|reflexivity].
Qed.

Lemma class_of_lt w c cls : class_of w c = Some cls -> c < length (wcls w).
Proof. unfold class_of. intros H. apply nth_error_Some. congruence. Qed.

(** The members of the merged MRO are classes whose own MRO it contains. *)
Lemma merged_mro_closed w bs ms m :
  wf w -> mros_of w bs = Some ms ->
  c3_merge (merge_fuel (ms ++ [bs])) (ms ++ [bs]) = Some m ->
  forall c', In c' m -> exists cls', class_of w c' = Some cls' /\ incl (cmro cls') m.
Proof.
  intros Hwf Hms Hm c' Hc'.
  destruct (mros_of_spec _ _ _ Hms) as [H1 H2].
  pose proof (c3_merge_members _ _ _ Hm) as Hmem.
  (* every sequence that is merged is contained in the result *)
  assert (Hsub : forall s, In s (ms ++ [bs]) -> incl s m).
  { intros s Hs x Hx. apply Hmem. eauto. }
  apply Hmem in Hc' as [s [Hs Hx]].
  apply in_app_or in Hs as [Hs|[<-|[]]].
  - destruct (H1 s Hs) as [b [clsb [Hb [Hcb ->]]]].
    destruct (proj2 (Hwf b clsb Hcb) c' Hx) as [cls' [Hc'' Hincl]].
    exists cls'. split; [exact Hc''|].
    intros y Hy. apply (Hsub (cmro clsb)); [apply in_or_app; left; exact Hs|]. apply Hincl, Hy.
  - destruct (H2 c' Hx) as [cls' [Hc'' Hin]]. exists cls'. split; [exact Hc''|].
    apply Hsub. apply in_or_app; left; exact Hin.
Qed.

Lemma wf_type_new w k name bases ns w1 t :
  wf w -> type_new w k name bases ns = Ok (w1, t) ->
  wf w1 /\ t = length (wcls w) /\
  (forall c, c < t -> class_of w1 c = class_of w c) /\
  exists m, class_of w1 t = Some (mk_class name k (t :: m) (set_names ns)) /\
            (forall c', In c' m -> c' < t).
Proof.
  intros Hwf Hnew. destruct (type_new_inv _ _ _ _ _ _ _ Hnew) as [Ht [bs [ms [m [_ [Hms [Hm ->]]]]]]].
  subst t. pose proof (merged_mro_closed _ _ _ _ Hwf Hms Hm) as Hcl.
  set (x := mk_class name k (length (wcls w) :: m) (set_names ns)).
  assert (Hold : forall c, c < length (wcls w) -> class_of (mk_world (wcls w ++ [x]) (winst w)) c = class_of w c)
    by (intros; apply class_of_snoc_old; assumption).
  split; [|split; [reflexivity|split; [exact Hold|]]].
  - intros c cls Hc. apply class_of_snoc_inv in Hc as [[Hlt Hc]|[-> ->]].
    + destruct (Hwf c cls Hc) as [Hhd Hmem]. split; [exact Hhd|].
      intros c' Hc'. destruct (Hmem c' Hc') as [cls' [Hc'' Hi]].
      exists cls'. split; [rewrite Hold by (eapply class_of_lt; eassumption); exact Hc''|exact Hi].
    + split; [reflexivity|]. simpl. intros c' [<-|Hc'].
      * exists x. split; [apply class_of_snoc_new|apply incl_refl].
      * destruct (Hcl c' Hc') as [cls' [Hc'' Hi]]. exists cls'.
        split; [rewrite Hold by (eapply class_of_lt; eassumption); exact Hc''|].
        intros y Hy. right. apply Hi, Hy.
  - exists m. split; [apply class_of_snoc_new|].
    intros c' Hc'. destruct (Hcl c' Hc') as [cls' [Hc'' _]]. eapply class_of_lt; eassumption.
Qed.

(** ** Lookups *)


Lemma is_class_constant_intro w n mro c cls :
  In c mro -> class_of w c = Some cls -> is_slot (dget n (cdict cls)) = true ->
  _is_class_constant w n mro = true.
Proof.
  intros Hin Hc Hs. unfold _is_class_constant. apply existsb_exists.
  exists c. split; [exact Hin|]. rewrite Hc. exact Hs.
Qed.

Lemma is_class_constant_elim w n mro :
  _is_class_constant w n mro = true ->
  exists c cls, In c mro /\ class_of w c = Some cls /\ is_slot (dget n (cdict cls)) = true.
Proof.
  unfold _is_class_constant. intros H. apply existsb_exists in H as [c [Hin Hc]].
  destruct (class_of w c) as [cls|] eqn:E; [|discriminate]. exists c, cls. auto.
Qed.



(** ** What [MyMeta.__new__] builds *)

Lemma mymeta_new_inv w name bases ns w' t :
  mymeta_new w name bases ns = Ok (w', t) ->
  exists ns' cs w1 cls1 cs2,
    promote_constants ns = Ok (ns', cs) /\
    type_new w Meta name bases ns' = Ok (w1, t) /\
    class_of w1 t = Some cls1 /\
    gather_constants w1 (cmro cls1) (supdate cs (own_constant_names (cdict cls1))) = Ok cs2 /\
    _is_class_constant w1 "__constants__" (cmro cls1) = false /\
    w' = update_class w1 t
           (fun c => with_cdict (dset "__constants__" (APlain (VSet (to_set cs2))) (cdict c)) c).
Proof.
  unfold mymeta_new.
  destruct (body_has_constant ns); [discriminate|].
  destruct (promote_constants ns) as [[ns' cs]|e] eqn:Hp; [|discriminate].
  destruct (type_new w Meta name bases ns') as [[w1 t1]|e] eqn:Hn; [|discriminate].
  destruct (class_of w1 t1) as [cls1|] eqn:Hc; [|discriminate].
  destruct (gather_constants _ _ _) as [cs2|e] eqn:Hg; [|discriminate].
  assert (Hk : ckind cls1 = Meta).
  { destruct (type_new_inv _ _ _ _ _ _ _ Hn) as [Ht [bs [ms [m [_ [_ [_ Hw1]]]]]]].
    subst w1 t1. rewrite class_of_snoc_new in Hc. inversion Hc. reflexivity. }
  unfold type_setattr. rewrite Hc, Hk.
  destruct (guard_shadow w1 t1 cls1); [discriminate|].
  destruct (_is_class_constant w1 "__constants__" (cmro cls1)) eqn:Hguard; [discriminate|].
  rewrite (type_setattr_base_ok _ _ _ "__constants__" _ Hc ltac:(congruence) eq_refl).
  intros H; inversion H; subst.
  exists ns', cs, w1, cls1, cs2. auto 7.
Qed.

Lemma mymeta_new_body w name bases ns r :
  mymeta_new w name bases ns = Ok r -> body_has_constant ns = false.
Proof. unfold mymeta_new. destruct (body_has_constant ns); [discriminate|reflexivity]. Qed.

(** ** Worlds whose classes keep their MROs *)

Lemma wf_same_mros w w' : same_mros w w' -> wf w -> wf w'.
Proof.
  intros Hs Hwf c cls' Hc'.
  pose proof (Hs c) as Hsc. rewrite Hc' in Hsc.
  destruct (class_of w c) as [cls|] eqn:Hc; [|discriminate]. simpl in Hsc. inversion Hsc as [Hm].
  destruct (Hwf c cls Hc) as [Hhd Hmem]. rewrite Hm. split; [exact Hhd|].
  intros c' Hin. destruct (Hmem c' Hin) as [x [Hx Hi]].
  pose proof (Hs c') as Hsc'. rewrite Hx in Hsc'.
  destruct (class_of w' c') as [x'|] eqn:Hx'; [|discriminate]. simpl in Hsc'. inversion Hsc' as [Hm'].
  exists x'. split; [reflexivity|]. rewrite Hm'. exact Hi.
Qed.

Lemma same_mros_update_class w t d :
  same_mros w (update_class w t (fun c => with_cdict (d c) c)).
Proof.
  intros c. destruct (Nat.eq_dec c t) as [->|Hne].
  - destruct (class_of w t) as [cls|] eqn:Ht.
    + rewrite (class_of_update_class_eq _ _ _ _ Ht). reflexivity.
    + unfold update_class. rewrite Ht. rewrite Ht. reflexivity.
  - rewrite class_of_update_class_neq by exact Hne. reflexivity.
Qed.

Lemma same_mros_classes w w' : wcls w' = wcls w -> same_mros w w'.
Proof. intros H c. unfold class_of. rewrite H. reflexivity. Qed.

Lemma wf_mymeta_new w name bases ns w' t :
  wf w -> mymeta_new w name bases ns = Ok (w', t) -> wf w'.
Proof.
  intros Hwf Hnew.
  destruct (mymeta_new_inv _ _ _ _ _ _ Hnew) as [ns' [cs [w1 [cls1 [cs2 [_ [Hn [_ [_ [_ ->]]]]]]]]]].
  destruct (wf_type_new _ _ _ _ _ _ _ Hwf Hn) as [Hwf1 _].
  eapply wf_same_mros; [apply same_mros_update_class|exact Hwf1].
Qed.

Lemma same_mros_refl w : same_mros w w.
Proof. intros c. reflexivity. Qed.

Lemma wcls_update_inst w i f : wcls (update_inst w i f) = wcls w.
Proof. unfold update_inst. destruct (inst_of w i); reflexivity. Qed.

Lemma wcls_inst_dict_set w i n v : wcls (inst_dict_set w i n v) = wcls w.
Proof. destruct (inst_dict_set_cases w i n v) as [-> | ->]; [reflexivity|apply wcls_update_inst]. Qed.

Lemma class_stmt_cases w name bases ns r :
  class_stmt w name bases ns = Ok r ->
  mymeta_new w name bases ns = Ok r \/ type_new w Plain name bases ns = Ok r.
Proof.
  unfold class_stmt. destruct (existsb _ _); [auto|].
  destruct (body_has_constant ns); [discriminate|auto].
Qed.

Lemma wcls_obj_setattr w i n v : wcls (fst (obj_setattr w i n v)) = wcls w.
Proof.
  unfold obj_setattr. destruct (inst_of w i); [|reflexivity].
  destruct (class_of w (icls i0)) as [cls|]; [|reflexivity].
  destruct (lookup_mro _ _ _) as [[? [s|v']]|]; [reflexivity| |];
    (destruct (special_name n); [reflexivity|]); destruct (ckind cls);
    try reflexivity; apply wcls_update_inst.
Qed.

Lemma wcls_obj_delattr w i n : wcls (fst (obj_delattr w i n)) = wcls w.
Proof.
  unfold obj_delattr. destruct (inst_of w i); [|reflexivity].
  destruct (class_of w (icls i0)); [|reflexivity].
  destruct (lookup_mro _ _ _) as [[? [s|v']]|]; [reflexivity| |];
    (destruct (special_name n); [reflexivity|]);
    destruct (dget n (idict i0)); try reflexivity; apply wcls_update_inst.
Qed.

Lemma fst_type_setattr w t n v :
  special_name n = false ->
  fst (type_setattr w t n v) = w \/
  fst (type_setattr w t n v) = update_class w t (fun c => with_cdict (dset n v (cdict c)) c).
Proof.
  intros Hs. unfold type_setattr, type_setattr_base.
  rewrite (special_name_not_name _ Hs), Hs. destruct (class_of w t) as [cls|]; [|auto].
  destruct (ckind cls); [auto|auto|].
  destruct (guard_shadow _ _ _); [auto|]. destruct (_is_class_constant _ _ _); auto.
Qed.

Lemma fst_type_delattr w t n :
  special_name n = false ->
  fst (type_delattr w t n) = w \/
  fst (type_delattr w t n) = update_class w t (fun c => with_cdict (ddel n (cdict c)) c).
Proof.
  intros Hs. unfold type_delattr, type_delattr_base.
  rewrite (special_name_not_name _ Hs), Hs. destruct (class_of w t) as [cls|]; [|auto].
  destruct (ckind cls); [auto| |]; [|destruct (guard_shadow _ _ _); [auto|];
                                      destruct (_is_class_constant _ _ _); [auto|]];
    destruct (dget n (cdict cls)); auto.
Qed.

Lemma wf_init : wf w_init.
Proof.
  intros c cls Hc. destruct c as [|[|c]]; simpl in Hc; try discriminate.
  inversion Hc; subst. split; [reflexivity|]. intros c' [<-|[]].
  exists object_class. split; [reflexivity|apply incl_refl].
Qed.

Lemma reachable_wf w : reachable w -> wf w.
Proof.
  induction 1 as [ | w w' name bases ns t Hr IH Hnd Hnc Hcs
                 | w w' name bases ns t Hr IH Hnd Hnc Hcs
                 | w t Hr IH | w i n v Hr IH | w i n Hr IH | w i n v Hr IH
                 | w t n v Hr IH Hn Hsp | w t n Hr IH Hn Hsp ].
  - exact wf_init.
  - destruct (class_stmt_cases _ _ _ _ _ Hcs) as [Hcs'|Hcs'].
    + eapply wf_mymeta_new; eassumption.
    + eapply wf_type_new; eassumption.
  - eapply wf_mymeta_new; eassumption.
  - eapply wf_same_mros; [apply same_mros_classes; reflexivity|exact IH].
  - eapply wf_same_mros; [apply same_mros_classes, wcls_obj_setattr|exact IH].
  - eapply wf_same_mros; [apply same_mros_classes, wcls_obj_delattr|exact IH].
  - eapply wf_same_mros; [apply same_mros_classes, wcls_inst_dict_set|exact IH].
  - destruct (fst_type_setattr w t n v Hsp) as [-> | ->]; [exact IH|].
    eapply wf_same_mros; [apply (same_mros_update_class w t (fun c => dset n v (cdict c)))|exact IH].
  - destruct (fst_type_delattr w t n Hsp) as [-> | ->]; [exact IH|].
    eapply wf_same_mros; [apply (same_mros_update_class w t (fun c => ddel n (cdict c)))|exact IH].
Qed.


Local Open Scope string_scope.

(** * C2: the published set contains every ancestor's *)


Lemma reachable_w_D : reachable w_C /\ reachable w_D.
Proof.
  assert (HA : reachable w_A)
    by (eapply (reach_mymeta w_init w_A "A" [] ns_A 1); [exact reach_init|repeat constructor; simpl; intuition discriminate|reflexivity|vm_compute; reflexivity]).
  assert (HB : reachable w_B)
    by (eapply (reach_class w_A w_B "B" [A_id] ns_B 2); [exact HA|repeat constructor; simpl; intuition discriminate|reflexivity|vm_compute; reflexivity]).
  assert (HC : reachable w_C)
    by (eapply (reach_class w_B w_C "C" [] [] 3); [exact HB|constructor|reflexivity|vm_compute; reflexivity]).
  split; [exact HC|].
  eapply (reach_class w_C w_D "D" [C_id; B_id] ns_D 4); [exact HC|repeat constructor; simpl; intuition discriminate|reflexivity|vm_compute; reflexivity].
Qed.



(** * C7: a declared name without a value *)




(** * C8: the declaration field is consumed *)



(** * C10: every published name is guarded *)

(** ** Lookups that only read one key *)

Lemma lookup_mro_key_ext w w' mro k :
  (forall c, option_map (fun cls => dget k (cdict cls)) (class_of w' c) =
             option_map (fun cls => dget k (cdict cls)) (class_of w c)) ->
  lookup_mro w' mro k = lookup_mro w mro k.
Proof.
  intros H. induction mro as [|c rest IH]; simpl; [reflexivity|].
  specialize (H c).
  destruct (class_of w' c) as [x'|], (class_of w c) as [x|]; simpl in H; try discriminate.
  - injection H as Hd. rewrite Hd. destruct (dget k (cdict x)); [reflexivity|exact IH].
  - exact IH.
Qed.

(** ** Steps that keep every class's MRO, kind and published set, and
    every [class_constant] of a class not of kind [Plain] *)







(** ** Class creation *)









(** Calling [type.__delattr__] directly skips [MyMeta]'s guard:
    [type.__delattr__(A, "foo")] removes [A]'s [class_constant] while
    ["foo"] stays in [A.__constants__].  Such calls are not steps of
    [reachable]. *)
Lemma bypass_removes_constant :
  snd (type_delattr_base w_A A_id "foo") = None /\
  In "foo" (published (fst (type_delattr_base w_A A_id "foo")) A_id) /\
  _is_class_constant (fst (type_delattr_base w_A A_id "foo")) "foo" [A_id; 0] = false.
Proof. vm_compute. repeat split; auto. Qed.



(** * Further properties of the attribute protocol *)

(** ** Successful steps, taken apart *)

Lemma inst_of_update_inst_neq w i f j : j <> i -> inst_of (update_inst w i f) j = inst_of w j.
Proof.
  unfold update_inst. intros H. destruct (inst_of w i); [|reflexivity].
  unfold inst_of; simpl. apply nth_error_replace_nth_neq. exact H.
Qed.

Lemma winst_update_class w t f : winst (update_class w t f) = winst w.
Proof. unfold update_class. destruct (class_of w t); reflexivity. Qed.

Lemma obj_setattr_ok w i n v w' :
  obj_setattr w i n v = (w', None) ->
  exists o cls, inst_of w i = Some o /\ class_of w (icls o) = Some cls /\
    (forall c s, lookup_mro w (cmro cls) n <> Some (c, ASlot s)) /\
    special_name n = false /\
    w' = update_inst w i (fun o => with_idict (dset n v (idict o)) o).
Proof.
  unfold obj_setattr. destruct (inst_of w i) as [o|] eqn:Hi; [|discriminate].
  destruct (class_of w (icls o)) as [cls|] eqn:Hc; [|discriminate].
  intros H. exists o, cls. split; [reflexivity|]. split; [exact Hc|].
  destruct (lookup_mro w (cmro cls) n) as [[c [s|pv]]|] eqn:Hl; [discriminate| |];
    (split; [intros c' s'; discriminate|]);
    (destruct (special_name n); [discriminate|]); (split; [reflexivity|]);
    destruct (ckind cls); first [discriminate|injection H as <-; reflexivity].
Qed.


(** A successful [type.__setattr__]: a non-special name stored, or a
    rename through [__name__]. *)
Lemma type_setattr_base_success w t cls n a w' :
  class_of w t = Some cls -> type_setattr_base w t n a = (w', None) ->
  ckind cls <> Builtin /\
  ((special_name n = false /\ w' = update_class w t (fun c => with_cdict (dset n a (cdict c)) c)) \/
   (n = "__name__"%string /\ exists s, a = APlain (VStr s) /\ w' = update_class w t (with_cname s))).
Proof.
  intros Ht H. unfold type_setattr_base in H. rewrite Ht in H.
  assert (Hgen : (if String.eqb n "__name__" then
                    match a with
                    | APlain (VStr n0) =>
                        if has_nul n0 then (w, Some (ValueError "type name must not contain null characters"))
                        else (update_class w t (with_cname n0), None)
                    | _ => (w, Some (TypeError ("can only assign string to " ++ cname cls ++ ".__name__, not '" ++ attr_type_name a ++ "'")))
                    end
                  else if special_name n then (w, Some (Unmodelled n))
                  else (update_class w t (fun c => with_cdict (dset n a (cdict c)) c), None)) = (w', None) ->
                 (special_name n = false /\ w' = update_class w t (fun c => with_cdict (dset n a (cdict c)) c)) \/
                 (n = "__name__"%string /\ exists s, a = APlain (VStr s) /\ w' = update_class w t (with_cname s))).
  { intros H'. destruct (String.eqb n "__name__") eqn:En.
    - right. apply String.eqb_eq in En. split; [exact En|].
      destruct a as [s0|[|z|s0|l]]; try discriminate.
      destruct (has_nul s0); [discriminate|]. injection H' as <-. exists s0. split; reflexivity.
    - left. destruct (special_name n); [discriminate|]. injection H' as <-. split; reflexivity. }
  destruct (ckind cls); [discriminate| |]; (split; [discriminate|]); apply Hgen; exact H.
Qed.

Lemma type_setattr_ok w t n a w' :
  type_setattr w t n a = (w', None) ->
  exists cls, class_of w t = Some cls /\ ckind cls <> Builtin /\
    (ckind cls = Meta -> guard_shadow w t cls = None /\ _is_class_constant w n (cmro cls) = false) /\
    ((special_name n = false /\ w' = update_class w t (fun c => with_cdict (dset n a (cdict c)) c)) \/
     (n = "__name__"%string /\ exists s, a = APlain (VStr s) /\ w' = update_class w t (with_cname s))).
Proof.
  intros H. unfold type_setattr in H.
  destruct (class_of w t) as [cls|] eqn:Ht; [|discriminate].
  exists cls. split; [reflexivity|].
  destruct (ckind cls) eqn:Hk.
  - destruct (type_setattr_base_success _ _ _ _ _ _ Ht H) as [Hb _]. contradiction.
  - destruct (type_setattr_base_success _ _ _ _ _ _ Ht H) as [Hb Hc].
    split; [discriminate|]. split; [intros Hm; discriminate Hm|exact Hc].
  - destruct (guard_shadow w t cls) eqn:Hsh; [discriminate|].
    destruct (_is_class_constant w n (cmro cls)) eqn:Hg; [discriminate|].
    destruct (type_setattr_base_success _ _ _ _ _ _ Ht H) as [Hb Hc].
    split; [discriminate|]. split; [intros _; split; reflexivity|exact Hc].
Qed.


(** ** MROs list older classes only *)





(** ** Instance attributes *)

(** X2.  After a successful [i.n = v], [i.n] reads [v]; every other name
    of [i], every attribute of every other instance and every attribute
    read through a class read as before. *)
Theorem instance_set_then_get w i n v w' :
  obj_setattr w i n v = (w', None) ->
  obj_getattr w' i n = Ok v /\
  (forall n', n' <> n -> obj_getattr w' i n' = obj_getattr w i n') /\
  (forall j n', j <> i -> obj_getattr w' j n' = obj_getattr w j n') /\
  (forall t n', type_getattr w' t n' = type_getattr w t n').
Proof.
  intros H. destruct (obj_setattr_ok _ _ _ _ _ H) as [o [cls [Hi [Hc [Hns [Hsp ->]]]]]].
  set (f := fun o => with_idict (dset n v (idict o)) o).
  assert (Hlk : forall mro m, lookup_mro (update_inst w i f) mro m = lookup_mro w mro m)
    by (intros; apply lookup_mro_ext; intros; apply class_of_update_inst).
  split; [|split; [|split]].
  - unfold obj_getattr. rewrite (inst_of_update_inst_eq _ _ f _ Hi). cbn [f icls idict with_idict].
    rewrite class_of_update_inst, Hc, Hlk, Hsp.
    destruct (lookup_mro w (cmro cls) n) as [[c [s|pv]]|] eqn:Hl;
      [exfalso; first [exact (Hns c s Hl)|exact (Hns c s eq_refl)]| |]; rewrite dget_dset_eq; reflexivity.
  - intros n' Hn'. unfold obj_getattr. rewrite (inst_of_update_inst_eq _ _ f _ Hi), Hi.
    cbn [f icls idict with_idict]. rewrite class_of_update_inst, Hc, Hlk.
    rewrite dget_dset_neq by exact Hn'. reflexivity.
  - intros j n' Hj. unfold obj_getattr. rewrite inst_of_update_inst_neq by exact Hj.
    destruct (inst_of w j) as [oj|]; [|reflexivity].
    rewrite class_of_update_inst. destruct (class_of w (icls oj)); [|reflexivity].
    rewrite Hlk. reflexivity.
  - intros t n'. unfold type_getattr. rewrite class_of_update_inst.
    destruct (class_of w t); [|reflexivity]. rewrite Hlk. reflexivity.
Qed.

Lemma instance_set_then_get_witness :
  obj_getattr (fst (obj_setattr w_e e_id "bar" (VInt 9))) e_id "bar" = Ok (VInt 9).
Proof.
  assert (H : obj_setattr w_e e_id "bar" (VInt 9) = (fst (obj_setattr w_e e_id "bar" (VInt 9)), None))
    by (vm_compute; reflexivity).
  exact (proj1 (instance_set_then_get _ _ _ _ _ H)).
Defined.



(** ** Class attributes *)

Lemma mro_head w t cls : wf w -> class_of w t = Some cls -> cmro cls = t :: tl (cmro cls).
Proof.
  intros Hwf Ht. destruct (Hwf t cls Ht) as [Hhd _].
  destruct (cmro cls); simpl in Hhd; [discriminate|injection Hhd as ->; reflexivity].
Qed.


(** X4.  After a successful [T.n = a] in a well-formed world, [T.n] reads
    [a] ([a]'s [__get__] result with owner [T] when [a] is a
    [class_constant]; the new name when [n] is [__name__]); no other class
    and no instance changes. *)
Theorem type_set_then_get w t cls n a w' :
  wf w -> class_of w t = Some cls -> type_setattr w t n a = (w', None) ->
  type_getattr w' t n = match a with ASlot s => Ok (cc_fget s (CtxType t)) | APlain v => Ok v end /\
  (forall c, c <> t -> class_of w' c = class_of w c) /\ winst w' = winst w.
Proof.
  intros Hwf Ht H. destruct (type_setattr_ok _ _ _ _ _ H) as [cls0 [Ht0 [_ [_ Hcase]]]].
  rewrite Ht in Ht0. injection Ht0 as <-.
  destruct Hcase as [[Hsp ->] | [-> [s [-> ->]]]].
  - set (f := fun c => with_cdict (dset n a (cdict c)) c).
    pose proof (class_of_update_class_eq w t f cls Ht) as Hc'.
    pose proof (mro_head w t cls Hwf Ht) as Hm.
    split; [|split].
    + rewrite (type_getattr_lookup _ _ _ _ Hc' Hsp). cbn [f cmro with_cdict]. rewrite Hm. cbn [lookup_mro].
      rewrite Hc'. cbn [f cdict with_cdict]. rewrite dget_dset_eq. destruct a; reflexivity.
    + intros c Hne. apply class_of_update_class_neq, Hne.
    + apply winst_update_class.
  - split; [|split].
    + unfold type_getattr. rewrite (class_of_update_class_eq w t _ cls Ht). reflexivity.
    + intros c Hne. apply class_of_update_class_neq, Hne.
    + apply winst_update_class.
Qed.

Lemma type_set_then_get_witness :
  type_getattr (fst (type_setattr w_D D_id "color" (APlain (VStr "red")))) D_id "color" = Ok (VStr "red").
Proof.
  assert (H : type_setattr w_D D_id "color" (APlain (VStr "red")) =
              (fst (type_setattr w_D D_id "color" (APlain (VStr "red"))), None))
    by (vm_compute; reflexivity).
  assert (Hc : class_of w_D D_id = Some (mk_class "D" Meta [4; 3; 2; 1; 0]
      [("gaz", ASlot (mk_class_constant (Some "gaz") (fun _ => VInt (-1))));
       ("__constants__", APlain (VSet ["gaz"; "bar"; "foo"]))])) by (vm_compute; reflexivity).
  exact (proj1 (type_set_then_get _ _ _ _ _ _ (reachable_wf _ (proj2 reachable_w_D)) Hc H)).
Defined.



(** ** Promotion of the declared names *)



Lemma promote_fold_keep_slot cs ns k s :
  dget k ns = Some (ASlot s) -> dget k (fold_left promote_one cs ns) = Some (ASlot s).
Proof.
  revert ns; induction cs as [|a cs IH]; intros ns H; simpl; [exact H|].
  apply IH. destruct (String.eqb a k) eqn:E.
  - apply String.eqb_eq in E; subst a. unfold promote_one. rewrite H. exact H.
  - apply String.eqb_neq in E. rewrite promote_one_other by congruence. exact H.
Qed.








(** ** The published set of a new class *)



(** ** A class statement only adds a class *)






(** ** The reserved name [__constants__] *)



(** ** Protection along the MRO *)

(** X13.  A name guarded by [_is_class_constant] on the MRO of a class
    [b] is guarded on the MRO of every class that has [b] in its MRO: on a
    subclass built by [MyMeta] whose MRO does not shadow the static method
    [_is_class_constant], [T.n = v] and [del T.n] raise [AttributeError]
    and change nothing. *)
Theorem protection_inherited w t cls b clsb n :
  wf w -> class_of w t = Some cls -> In b (cmro cls) -> class_of w b = Some clsb ->
  _is_class_constant w n (cmro clsb) = true ->
  _is_class_constant w n (cmro cls) = true /\
  (ckind cls = Meta -> guard_shadow w t cls = None ->
   (forall a, type_setattr w t n a =
      (w, Some (AttributeError ("Cannot modify class constant '" ++ cname cls ++ "." ++ n ++ "'.")))) /\
   type_delattr w t n =
      (w, Some (AttributeError ("Cannot delete class constant '" ++ cname cls ++ "." ++ n ++ "'.")))).
Proof.
  intros Hwf Hc Hb Hcb Hg.
  destruct (proj2 (Hwf t cls Hc) b Hb) as [clsb' [Hcb' Hincl]].
  rewrite Hcb in Hcb'. injection Hcb' as <-.
  destruct (is_class_constant_elim _ _ _ Hg) as [c [x [Hin [Hx Hs]]]].
  assert (Hg' : _is_class_constant w n (cmro cls) = true)
    by (apply (is_class_constant_intro w n _ c x); [apply Hincl, Hin|exact Hx|exact Hs]).
  split; [exact Hg'|]. intros Hk Hsh. split.
  - intros a. unfold type_setattr. rewrite Hc, Hk, Hsh, Hg'. reflexivity.
  - unfold type_delattr. rewrite Hc, Hk, Hsh, Hg'. reflexivity.
Qed.

Lemma protection_inherited_witness :
  type_delattr w_D D_id "bar" =
    (w_D, Some (AttributeError ("Cannot delete class constant 'D.bar'."))).
Proof.
  exact (proj2 (proj2 (protection_inherited w_D D_id
      (mk_class "D" Meta [4; 3; 2; 1; 0]
         [("gaz", ASlot (mk_class_constant (Some "gaz") (fun _ => VInt (-1))));
          ("__constants__", APlain (VSet ["gaz"; "bar"; "foo"]))])
      B_id B_class "bar" (reachable_wf _ (proj2 reachable_w_D)) eq_refl
      ltac:(simpl; tauto) eq_refl ltac:(vm_compute; reflexivity)) eq_refl ltac:(vm_compute; reflexivity))).
Defined.

(** ** A [class_constant] assigned after creation *)

Lemma key_update_class w t cls g k :
  class_of w t = Some cls -> dget k (g (cdict cls)) = dget k (cdict cls) ->
  forall c0, option_map (fun cls => dget k (cdict cls))
               (class_of (update_class w t (fun c => with_cdict (g (cdict c)) c)) c0) =
             option_map (fun cls => dget k (cdict cls)) (class_of w c0).
Proof.
  intros Ht Hg c0. destruct (Nat.eq_dec c0 t) as [->|Hne].
  - rewrite (class_of_update_class_eq _ _ _ _ Ht), Ht. simpl. rewrite Hg. reflexivity.
  - rewrite class_of_update_class_neq by exact Hne. reflexivity.
Qed.

Lemma published_update_class w t cls g c :
  class_of w t = Some cls ->
  dget "__constants__" (g (cdict cls)) = dget "__constants__" (cdict cls) ->
  published (update_class w t (fun c0 => with_cdict (g (cdict c0)) c0)) c = published w c.
Proof.
  intros Ht Hg.
  set (w' := update_class w t (fun c0 => with_cdict (g (cdict c0)) c0)).
  pose proof (key_update_class w t cls g "__constants__" Ht Hg) as Hkey.
  unfold published, constants_of, type_getattr.
  destruct (Nat.eq_dec c t) as [->|Hne].
  - unfold w'. rewrite (class_of_update_class_eq _ _ _ _ Ht), Ht. cbn [with_cdict cmro cname].
    rewrite (lookup_mro_key_ext _ _ _ _ Hkey). reflexivity.
  - unfold w'. rewrite class_of_update_class_neq by exact Hne.
    destruct (class_of w c); [|reflexivity].
    rewrite (lookup_mro_key_ext _ _ _ _ Hkey). reflexivity.
Qed.

(** X14.  [T.n = class_constant(...)] after [T] was created (for [n]
    other than ["__constants__"] and ["_is_class_constant"]) makes [n]
    guarded on [T]'s MRO, so on a class built by [MyMeta] later writes of
    [n] raise, but it does not add [n] to the published [T.__constants__]
    of any class. *)
Theorem late_constant_unpublished w t cls n s w' :
  wf w -> class_of w t = Some cls -> n <> "__constants__" -> n <> "_is_class_constant" ->
  type_setattr w t n (ASlot s) = (w', None) ->
  _is_class_constant w' n (cmro cls) = true /\
  (forall c, published w' c = published w c) /\
  (ckind cls = Meta -> forall a, type_setattr w' t n a =
     (w', Some (AttributeError ("Cannot modify class constant '" ++ cname cls ++ "." ++ n ++ "'.")))).
Proof.
  intros Hwf Hc Hne Hni H.
  destruct (type_setattr_ok _ _ _ _ _ H) as [cls0 [Hc0 [_ [Hguard [[_ Hw'] | [_ [s' [Habs _]]]]]]]];
    [|discriminate Habs].
  rewrite Hc in Hc0. injection Hc0 as <-.
  pose proof (class_of_update_class_eq w t (fun c => with_cdict (dset n (ASlot s) (cdict c)) c) cls Hc)
    as Hc'. rewrite <- Hw' in Hc'.
  destruct (Hwf t cls Hc) as [Hhd _].
  assert (Ht : In t (cmro cls)) by (destruct (cmro cls); simpl in Hhd; [discriminate|injection Hhd as ->; left; reflexivity]).
  assert (Hg : _is_class_constant w' n (cmro cls) = true).
  { apply (is_class_constant_intro w' n _ t _ Ht Hc'). simpl. rewrite dget_dset_eq. reflexivity. }
  split; [exact Hg|]. split.
  - intros c. rewrite Hw'. apply (published_update_class w t cls (dset n (ASlot s)) c Hc).
    apply dget_dset_neq. intros E. apply Hne. symmetry. exact E.
  - intros Hk a. unfold type_setattr. rewrite Hc'. cbn [with_cdict ckind cmro cname].
    assert (Hsh : guard_shadow w' t (with_cdict (dset n (ASlot s) (cdict cls)) cls) = None).
    { destruct (Hguard Hk) as [Hsh _]. unfold guard_shadow in Hsh |- *. cbn [with_cdict cmro].
      rewrite Hw', (lookup_mro_key_ext w _ (cmro cls) "_is_class_constant"); [exact Hsh|].
      apply (key_update_class w t cls (dset n (ASlot s)) "_is_class_constant" Hc).
      apply dget_dset_neq. intros E. apply Hni. symmetry. exact E. }
    rewrite Hk, Hsh, Hg. reflexivity.
Qed.

Lemma late_constant_unpublished_witness :
  published (fst (type_setattr w_D D_id "late" (ASlot (_make_class_constant (VInt 1))))) D_id =
  published w_D D_id.
Proof.
  exact (proj1 (proj2 (late_constant_unpublished w_D D_id
      (mk_class "D" Meta [4; 3; 2; 1; 0]
         [("gaz", ASlot (mk_class_constant (Some "gaz") (fun _ => VInt (-1))));
          ("__constants__", APlain (VSet ["gaz"; "bar"; "foo"]))])
      "late" (_make_class_constant (VInt 1))
      (fst (type_setattr w_D D_id "late" (ASlot (_make_class_constant (VInt 1)))))
      (reachable_wf _ (proj2 reachable_w_D)) eq_refl ltac:(discriminate) ltac:(discriminate)
      ltac:(vm_compute; reflexivity))) D_id).
Defined.

(** ** The MRO of a new class *)



